(** * GEP partner system: workbook profiler, relationship inference and
    SQL type inference

    A shallow embedding of the three scripts under [backend/]:
    - [excel_reader.py]: column profiling, [calculate_column_similarity],
      [analyze_relationships], [analyze_excel_file];
    - [sql_generator.py]: [map_pandas_to_sql_type],
      [generate_sql_schema_and_data];
    - [comprehensive_analysis_report.py]: [generate_comprehensive_report].

    Conventions.
    - A pandas cell is [option cell]: [None] is a missing entry (NaN, None,
      NaT); the type of present values and their [str] rendering are
      parameters of the development.
    - A Python [set] of strings is a [gset string].  The order in which
      Python iterates over a set of strings follows the per-process string
      hash, so [list(a_set)] takes the iteration order as an argument
      ([set_order]).
    - [len(common) / len(set1) * 100] is computed by Python in binary64 and
      modelled by the exact rational.  For counts below 2^24 (a worksheet has
      at most 2^20 rows) two quotients that differ are at least 2^-48 apart,
      far more than the two roundings move them, so the order and equality of
      the computed percentages, and their side of the threshold 50, are those
      of the rationals; the percentages 0, 62.5 and 100 of the specification
      are computed exactly ([Binary64]). *)

From Stdlib Require Import QArith Ascii String.
From Stdlib Require PrimFloat Uint63.
From stdpp Require Import gmap strings list pretty sorting.

Close Scope Q_scope.

(** ** Outcomes of effectful code: console output and exceptions *)

Module Effects.

(** The result of running a Python block: it returns a value or raises;
    [Raise e] carries [str(e)]. *)
Inductive result (A : Type) : Type :=
| Return (a : A)
| Raise (e : string).
Arguments Return {A} a.
Arguments Raise {A} e.

(** A run: the lines printed to the console, then the result. *)
Record io (A : Type) : Type := IO { console : list string; outcome : result A }.
Arguments IO {A} console outcome.
Arguments console {A} _.
Arguments outcome {A} _.

Definition ret {A} (a : A) : io A := IO [] (Return a).

Definition bind {A B} (m : io A) (k : A → io B) : io B :=
  match outcome m with
  | Return a => let r := k a in IO (console m ++ console r) (outcome r)
  | Raise e => IO (console m) (Raise e)
  end.

Definition print (line : string) : io unit := IO [line] (Return tt).

(** A library call that may raise and prints nothing. *)
Definition call {A} (r : result A) : io A := IO [] r.

(** [try: body except Exception as e: handler e] *)
Definition try_except {A} (body : io A) (handler : string → io A) : io A :=
  match outcome body with
  | Return _ => body
  | Raise e => let r := handler e in IO (console body ++ console r) (outcome r)
  end.

(** [for x in xs: body x], stopping at the first exception. *)
Fixpoint for_each {X} (xs : list X) (body : X → io unit) : io unit :=
  match xs with
  | [] => ret tt
  | x :: xs' => bind (body x) (λ _, for_each xs' body)
  end.

(** A loop that threads an accumulator. *)
Fixpoint for_fold {X S} (xs : list X) (s : S) (body : S → X → io S) : io S :=
  match xs with
  | [] => ret s
  | x :: xs' => bind (body s x) (λ s', for_fold xs' s' body)
  end.

Definition raised {A} (m : io A) : Prop := ∃ e, outcome m = Raise e.

End Effects.

Declare Scope io_scope.
Delimit Scope io_scope with io.
Notation "x <~ m ;~ k" := (Effects.bind m (λ x, k))
  (at level 20, m at level 99, k at level 200, only parsing) : io_scope.
Notation "m ;~ k" := (Effects.bind m (λ _, k))
  (at level 100, k at level 200, right associativity, only parsing) : io_scope.

(** ** Exact percentages *)

Module Percent.

Definition of_nat (n : nat) : Q := inject_Z (Z.of_nat n).

(** [(k / n) * 100] *)
Definition ratio100 (k n : nat) : Q := (of_nat k / of_nat n * 100)%Q.

End Percent.

(** ** The same quotient in binary64 *)

Module Binary64.

Definition of_nat (n : nat) : PrimFloat.float :=
  PrimFloat.of_uint63 (Uint63.of_Z (Z.of_nat n)).

(** [(k / n) * 100] on Python floats. *)
Definition ratio100 (k n : nat) : PrimFloat.float :=
  PrimFloat.mul (PrimFloat.div (of_nat k) (of_nat n)) (of_nat 100).

(** [x > 50] *)
Definition gt_50 (x : PrimFloat.float) : bool := PrimFloat.ltb (of_nat 50) x.

End Binary64.

(** ** Python strings and insertion-ordered dictionaries *)

Module Py.

Definition LF : string := String (Ascii.ascii_of_nat 10) EmptyString.

(** [s * n] *)
Fixpoint str_mul (s : string) (n : nat) : string :=
  match n with
  | 0 => EmptyString
  | S n' => s +:+ str_mul s n'
  end.

(** [s.replace(a, b)] for one-character [a] and [b]. *)
Fixpoint replace_char (a b : Ascii.ascii) (s : string) : string :=
  match s with
  | EmptyString => EmptyString
  | String c s' => String (if decide (c = a) then b else c) (replace_char a b s')
  end.

(** [s.startswith(p)] *)
Fixpoint startswith (p s : string) : bool :=
  match p, s with
  | EmptyString, _ => true
  | String a p', String b s' => bool_decide (a = b) && startswith p' s'
  | String _ _, EmptyString => false
  end.

(** [p in s] for strings: [p] occurs in [s] at some offset. *)
Fixpoint contains (p s : string) : bool :=
  startswith p s ||
  match s with
  | EmptyString => false
  | String _ s' => contains p s'
  end.

(** [s.endswith(p)] *)
Fixpoint endswith (p s : string) : bool :=
  bool_decide (s = p) ||
  match s with
  | EmptyString => false
  | String _ s' => endswith p s'
  end.

(** [s.lower()] on the ASCII letters.  A column name is held as its UTF-8
    bytes; the only characters outside ASCII whose lower case has an ASCII
    letter are U+212A (to k) and U+0130 (to i followed by U+0307), neither
    of which can complete an occurrence of the patterns date or time that
    this development searches in lowered names. *)
Definition lower_char (c : Ascii.ascii) : Ascii.ascii :=
  let n := Ascii.nat_of_ascii c in
  if bool_decide (65 ≤ n ≤ 90) then Ascii.ascii_of_nat (n + 32) else c.

Fixpoint lower (s : string) : string :=
  match s with
  | EmptyString => EmptyString
  | String c s' => String (lower_char c) (lower s')
  end.

(** An insertion-ordered [dict] with string keys: its items in insertion
    order, each key once. *)
Definition dict (V : Type) : Type := list (string * V).

(** [d.keys()] *)
Definition keys {V} (d : dict V) : list string := d.*1.

(** [d[k]]; [None] stands for [KeyError]. *)
Fixpoint item {V} (d : dict V) (k : string) : option V :=
  match d with
  | [] => None
  | (k', v) :: d' => if decide (k' = k) then Some v else item d' k
  end.

(** [d[k] = v]: a bound key keeps its place, a new one goes last. *)
Fixpoint setitem {V} (d : dict V) (k : string) (v : V) : dict V :=
  match d with
  | [] => [(k, v)]
  | (k', v') :: d' =>
      if decide (k' = k) then (k', v) :: d' else (k', v') :: setitem d' k v
  end.

(** A well-formed dictionary binds each key once. *)
Definition dict_wf {V} (d : dict V) : Prop := NoDup (keys d).

(** [enumerate(l)] *)
Definition enumerate {X} (l : list X) : list (nat * X) := imap (λ i x, (i, x)) l.

End Py.

(** ** excel_reader.py *)

Module ExcelReader.

Import Effects Py.

(** The iteration order of a set of strings, fixed for one interpreter
    process: some enumeration of the set's elements, each once. *)
Record set_order : Type := SetOrder {
  set_to_list : gset string → list string;
  set_to_list_perm : ∀ s, set_to_list s ≡ₚ elements s
}.

(** The result of [calculate_column_similarity]. *)
Record similarity : Type := Similarity {
  sim_match_percentage : Q;
  sim_common_values : list string
}.

(** One entry of [potential_relationships]. *)
Record relationship : Type := Relationship {
  from_sheet : string;
  from_column : string;
  to_sheet : string;
  to_column : string;
  match_percentage : Q;
  common_values : list string
}.

(** [relationships.sort(key=lambda x: x['match_percentage'], reverse=True)]:
    Python's sort is stable, also under [reverse=True].  [r] is put in
    front of the first entry whose percentage does not exceed its own, so
    an entry stays ahead of the equal entries that followed it. *)
Fixpoint sort_insert (r : relationship) (l : list relationship) : list relationship :=
  match l with
  | [] => [r]
  | r' :: l' =>
      if Qlt_le_dec (match_percentage r) (match_percentage r')
      then r' :: sort_insert r l'
      else r :: l
  end.

Fixpoint sort_by_match_percentage_desc (l : list relationship) : list relationship :=
  match l with
  | [] => []
  | r :: l' => sort_insert r (sort_by_match_percentage_desc l')
  end.

(** Two percentages are compared as numbers. *)
#[export] Instance Qeq_decision (p q : Q) : Decision (p == q)%Q := Qeq_dec p q.

(** The order the sort establishes: no entry is followed by a larger
    percentage. *)
Definition desc (r1 r2 : relationship) : Prop :=
  (match_percentage r2 <= match_percentage r1)%Q.

(** Two candidates that agree in everything but the order in which their
    common values are listed. *)
Definition same_candidate (r1 r2 : relationship) : Prop :=
  from_sheet r1 = from_sheet r2 ∧ from_column r1 = from_column r2
  ∧ to_sheet r1 = to_sheet r2 ∧ to_column r1 = to_column r2
  ∧ match_percentage r1 = match_percentage r2
  ∧ common_values r1 ≡ₚ common_values r2.

Section Profiler.

(** The present (non-missing) values of a cell, compared as pandas
    compares them when it counts distinct values, and their [str]. *)
Context {cell : Type} `{EqDecision cell}.
Variable astype_str : cell → string.

(** A pandas [Series]: its dtype name and its entries. *)
Record Series : Type := MkSeries {
  series_dtype : string;
  series_values : list (option cell)
}.

(** A pandas [DataFrame]: [len(df)], [df.columns] and [df[col]]. *)
Record DataFrame : Type := MkDataFrame {
  len : nat;
  columns : list string;
  getitem : string → Series
}.

(** Every column has one entry per row. *)
Definition DataFrame_wf (df : DataFrame) : Prop :=
  ∀ col, col ∈ columns df → length (series_values (getitem df col)) = len df.

(** A column without a present value. *)
Definition all_missing (s : Series) : Prop :=
  Forall (λ v, v = None) (series_values s).

(** [s.dropna()] *)
Definition dropna (s : Series) : list cell := omap id (series_values s).
(** [s.count()] *)
Definition count (s : Series) : nat := length (dropna s).
(** [s.isnull().sum()] *)
Definition isnull_sum (s : Series) : nat :=
  length (filter (λ v, v = None) (series_values s)).
(** [s.nunique()]: distinct values, missing entries left out. *)
Definition nunique (s : Series) : nat := length (remove_dups (dropna s)).
(** [s.empty] *)
Definition series_empty (s : Series) : bool :=
  bool_decide (length (series_values s) = 0).

(** [col_info] *)
Record col_info : Type := ColInfo {
  dtype : string;
  non_null_count : nat;
  null_count : nat;
  unique_count : nat;
  sample_values : list cell;
  potential_primary_key : bool
}.

(** The body of the loop [for col in df.columns] of
    [analyze_excel_file]. *)
Definition analyze_column (df : DataFrame) (col : string) : col_info :=
  let s := getitem df col in
  let dtype := series_dtype s in
  let non_null_count := count s in
  let null_count := isnull_sum s in
  let unique_count := nunique s in
  let sample_values := if negb (series_empty s) then take 5 (dropna s) else [] in
  if bool_decide (unique_count = len df ∧ null_count = 0)
  then ColInfo dtype non_null_count null_count unique_count sample_values true
  else ColInfo dtype non_null_count null_count unique_count sample_values false.

Definition column_info (df : DataFrame) : dict col_info :=
  foldl (λ acc col, setitem acc col (analyze_column df col)) [] (columns df).

(** ['shape': df.shape, 'columns': column_info] *)
Record sheet_structure : Type := SheetStructure {
  shape : nat * nat;
  structure_columns : dict col_info
}.

Definition df_shape (df : DataFrame) : nat * nat := (len df, length (columns df)).

(** The distinct string renderings of a column's present values:
    [set(col.dropna().astype(str))]. *)
Definition distinct_strs (s : Series) : gset string :=
  list_to_set (astype_str <$> dropna s).

(** [calculate_column_similarity(col1, col2)] *)
Definition calculate_column_similarity (h : set_order) (col1 col2 : Series)
  : similarity :=
  let col1_clean := dropna col1 in
  let col2_clean := dropna col2 in
  if bool_decide (length col1_clean = 0 ∨ length col2_clean = 0) then
    Similarity 0 []
  else
    let set1 : gset string := list_to_set (astype_str <$> col1_clean) in
    let set2 : gset string := list_to_set (astype_str <$> col2_clean) in
    let common_values := set1 ∩ set2 in
    let match_percentage :=
      if bool_decide (size set1 = 0) then 0%Q
      else Percent.ratio100 (size common_values) (size set1) in
    Similarity match_percentage (set_to_list h common_values).

(** The dictionary that [analyze_relationships] appends for a pair of
    columns. *)
Definition candidate (h : set_order) (sheet1 : string) (df1 : DataFrame)
    (col1 : string) (sheet2 : string) (df2 : DataFrame) (col2 : string)
  : relationship :=
  let similarity := calculate_column_similarity h (getitem df1 col1) (getitem df2 col2) in
  Relationship sheet1 col1 sheet2 col2
    (sim_match_percentage similarity) (sim_common_values similarity).

(** The nested loops of [analyze_relationships], before the sort: the
    candidates in the order in which they are appended. *)
Definition relationship_candidates (h : set_order) (all_sheets_data : dict DataFrame)
  : list relationship :=
  let sheet_names := keys all_sheets_data in
  '(i, sheet1) ← enumerate sheet_names;
  '(j, sheet2) ← enumerate sheet_names;
  if bool_decide (i ≠ j) then
    match item all_sheets_data sheet1, item all_sheets_data sheet2 with
    | Some df1, Some df2 =>
        col1 ← columns df1;
        col2 ← columns df2;
        if bool_decide (col1 ≠ col2) then
          let similarity :=
            calculate_column_similarity h (getitem df1 col1) (getitem df2 col2) in
          if Qlt_le_dec 50 (sim_match_percentage similarity) then
            [Relationship sheet1 col1 sheet2 col2
               (sim_match_percentage similarity) (sim_common_values similarity)]
          else []
        else []
    | _, _ => [] (* not reached: both names are keys, see [Py.item_keys] *)
    end
  else [].

(** [analyze_relationships(all_sheets_data)] *)
Definition analyze_relationships (h : set_order) (all_sheets_data : dict DataFrame)
  : list relationship :=
  sort_by_match_percentage_desc (relationship_candidates h all_sheets_data).

(** *** The run of [analyze_excel_file]

    The workbook reader, the file writers and the renderings that pandas
    and Python give to values in console messages are those of the
    environment; each call that touches a file may raise. *)

(** [analysis_data], the value handed to [json.dump].  The conversion
    [convert_to_serializable] of the sheet structures replaces numpy scalars
    by the Python numbers they hold, which are the same numbers here. *)
Record analysis_data : Type := AnalysisData {
  file_path : string;
  sheet_names : list string;
  sheet_structures : dict sheet_structure;
  potential_relationships : list relationship;
  total_sheets : nat
}.

(** [pd.ExcelFile(file_path).sheet_names] *)
Variable ExcelFile : string → result (list string).
(** [pd.read_excel(file_path, sheet_name=sheet_name)] *)
Variable read_excel : string → string → result DataFrame.
(** [df.to_csv(csv_filename, index=False)] *)
Variable to_csv : DataFrame → string → result unit.
(** [with open(path, 'w') as f: json.dump(analysis_data, f, ...)] *)
Variable json_dump : analysis_data → string → result unit.
(** [str] of a list of strings, of a list of cells, [df.head().to_string()]
    and the format [:.1f]. *)
Variable repr_names : list string → string.
Variable repr_cells : list cell → string.
Variable head_to_string : DataFrame → string.
Variable format_1f : Q → string.
(** The set iteration order of the process. *)
Variable h : set_order.

(** The body of [for sheet_name in sheet_names]. *)
Definition analyze_sheet (file_path : string)
    (acc : dict DataFrame * dict sheet_structure) (sheet_name : string)
  : io (dict DataFrame * dict sheet_structure) :=
  (print (LF +:+ "--- ANALYZING SHEET: " +:+ sheet_name +:+ " ---");~
   df <~ call (read_excel file_path sheet_name);~
   print ("Dimensions: " +:+ pretty (len df) +:+ " rows x "
          +:+ pretty (length (columns df)) +:+ " columns");~
   print ("Columns: " +:+ repr_names (columns df));~
   let all_sheets_data := setitem acc.1 sheet_name df in
   let column_info := column_info df in
   let sheet_structures :=
     setitem acc.2 sheet_name (SheetStructure (df_shape df) column_info) in
   print (LF +:+ "Column Analysis:");~
   for_each column_info (λ '(col, info),
     let pk_indicator :=
       if potential_primary_key info then " [POTENTIAL PRIMARY KEY]" else "" in
     print ("  " +:+ col +:+ ": " +:+ dtype info +:+ ", "
            +:+ pretty (non_null_count info) +:+ " non-null, "
            +:+ pretty (unique_count info) +:+ " unique" +:+ pk_indicator);~
     print ("    Sample values: " +:+ repr_cells (sample_values info)));~
   print (LF +:+ "First 5 rows of " +:+ sheet_name +:+ ":");~
   print (head_to_string df);~
   print (str_mul "-" 60);~
   ret (all_sheets_data, sheet_structures))%io.

Definition csv_filename (sheet_name : string) : string :=
  "/Users/mtz/Projects/GEP/backend/"
  +:+ replace_char "/"%char "_"%char (replace_char " "%char "_"%char sheet_name) +:+ "_data.csv".

(** The three values [analyze_excel_file] returns; all [None] after an
    error. *)
Definition analysis : Type :=
  option (dict DataFrame) * option (dict sheet_structure) * option (list relationship).

(** The [try] block of [analyze_excel_file]. *)
Definition analyze_excel_file_body (file_path : string) : io analysis :=
  (sheet_names <~ call (ExcelFile file_path);~
   print ("Excel file: " +:+ file_path);~
   print ("Total sheets found: " +:+ pretty (length sheet_names));~
   print ("Sheet names: " +:+ repr_names sheet_names);~
   print (str_mul "=" 80);~
   acc <~ for_fold sheet_names ([], []) (analyze_sheet file_path);~
   let all_sheets_data := acc.1 in
   let sheet_structures := acc.2 in
   print (LF +:+ str_mul "=" 80);~
   print "RELATIONSHIP ANALYSIS";~
   print (str_mul "=" 80);~
   let potential_relationships := analyze_relationships h all_sheets_data in
   for_each potential_relationships (λ relationship,
     print (LF +:+ "Potential Foreign Key Relationship:");~
     print ("  " +:+ from_sheet relationship +:+ "." +:+ from_column relationship
            +:+ " -> " +:+ to_sheet relationship +:+ "." +:+ to_column relationship);~
     print ("  Match percentage: " +:+ format_1f (match_percentage relationship) +:+ "%");~
     print ("  Common values sample: "
            +:+ repr_names (take 5 (common_values relationship))));~
   print (LF +:+ str_mul "=" 80);~
   print "EXPORTING DATA";~
   print (str_mul "=" 80);~
   for_each all_sheets_data (λ '(sheet_name, df),
     call (to_csv df (csv_filename sheet_name));~
     print ("Exported " +:+ sheet_name +:+ " to: " +:+ csv_filename sheet_name));~
   let analysis_data :=
     AnalysisData file_path sheet_names sheet_structures potential_relationships
                  (length sheet_names) in
   call (json_dump analysis_data "/Users/mtz/Projects/GEP/backend/excel_analysis.json");~
   print (LF +:+ "Complete analysis saved to: /Users/mtz/Projects/GEP/backend/excel_analysis.json");~
   ret (Some all_sheets_data, Some sheet_structures, Some potential_relationships))%io.

(** [analyze_excel_file(file_path)] *)
Definition analyze_excel_file (file_path : string) : io analysis :=
  try_except (analyze_excel_file_body file_path)
    (λ e, print ("Error reading Excel file: " +:+ e);~
          ret (None, None, None))%io.

(** The script run as [__main__]. *)
Definition main : io unit :=
  let file_path := "/Users/mtz/Projects/GEP/Gep DEMO DATA.xlsx" in
  (r <~ analyze_excel_file file_path;~
   match r with
   | (Some (_ :: _ as all_data), _, Some relationships) =>
       print (LF +:+ str_mul "=" 80);~
       print "SUMMARY";~
       print (str_mul "=" 80);~
       print ("Successfully analyzed " +:+ pretty (length all_data) +:+ " sheets");~
       print ("Found " +:+ pretty (length relationships) +:+ " potential relationships");~
       print "All data has been exported to CSV files and analysis saved to JSON"
   | _ => ret tt
   end)%io.

End Profiler.

End ExcelReader.

(** ** The inputs shared by the two generator scripts *)

Module Generated.

Definition analysis_json_path : string := "/Users/mtz/Projects/GEP/backend/excel_analysis.json".

(** [csv_files], in the order of the dictionary display. *)
Definition csv_files : Py.dict string :=
  [ ("Client", "/Users/mtz/Projects/GEP/backend/Client_data.csv");
    ("Installation", "/Users/mtz/Projects/GEP/backend/Installation_data.csv");
    ("Contract", "/Users/mtz/Projects/GEP/backend/Contract_data.csv");
    ("Contract Service (Project)",
      "/Users/mtz/Projects/GEP/backend/Contract_Service_(Project)_data.csv");
    ("Installation Services (Sub Pro)",
      "/Users/mtz/Projects/GEP/backend/Installation_Services_(Sub_Pro)_data.csv");
    ("Visits", "/Users/mtz/Projects/GEP/backend/Visits_data.csv");
    ("Resources", "/Users/mtz/Projects/GEP/backend/Resources_data.csv") ]%string.

Section ReadAll.
Import Effects.
Context {frame : Type}.
(** [pd.read_csv(csv_path)] *)
Variable read_csv : string → result frame.

(** [all_data = {}] then [all_data[sheet_name] = pd.read_csv(csv_path)]
    for each item of [csv_files]. *)
Definition read_all_data : io (Py.dict frame) :=
  for_fold csv_files [] (λ all_data '(sheet_name, csv_path),
    df <~ call (read_csv csv_path);~
    ret (Py.setitem all_data sheet_name df))%io.
End ReadAll.

End Generated.

(** ** sql_generator.py *)

Module SqlGenerator.

Import Effects Py.

(** [len(s)] of a Python string held as UTF-8: the bytes that start a
    character. *)
Fixpoint py_len (s : string) : nat :=
  match s with
  | EmptyString => 0
  | String c s' =>
      (if bool_decide (Ascii.nat_of_ascii c `div` 64 = 2) then 0 else 1) + py_len s'
  end.

(** The types the rules on the column name produce. *)
Definition name_rule_types : list string :=
  [ "INT PRIMARY KEY"; "VARCHAR(20) PRIMARY KEY"; "DATETIME"; "DATE"; "TIME";
    "DECIMAL(10,2)" ]%string.

Section TypeInference.

Context {cell : Type}.
(** [str(val)] of a sampled value. *)
Variable str : cell → string.

(** [map_pandas_to_sql_type(dtype, column_name, sample_values,
    unique_count, row_count)], [dtype] given as [str(dtype)].  The bare
    [except] around the length computation is not reached: [str] and
    [len] of a sampled value do not raise and the list is not empty. *)
Definition map_pandas_to_sql_type (dtype column_name : string)
    (sample_values : list cell) (unique_count row_count : nat) : string :=
  let dtype_str := dtype in
  if contains "Code" column_name || endswith "_id" column_name then
    if contains "int" dtype_str then "INT PRIMARY KEY"
    else "VARCHAR(20) PRIMARY KEY"
  else if contains "Date" column_name || contains "date" (lower column_name) then
    if contains "datetime64" dtype_str then "DATETIME"
    else "DATE"
  else if contains "Time" column_name || contains "time" (lower column_name) then
    "TIME"
  else if contains "Hours" column_name || contains "Duration" column_name
          || contains "Value" column_name || contains "Revenue" column_name
          || contains "Price" column_name then
    "DECIMAL(10,2)"
  else if bool_decide (unique_count ≤ 2) && contains "int" dtype_str then
    "TINYINT(1)"
  else if contains "int64" dtype_str then
    if bool_decide (unique_count = row_count) then "BIGINT PRIMARY KEY"
    else "BIGINT"
  else if contains "float64" dtype_str then
    "DECIMAL(15,4)"
  else if contains "datetime64" dtype_str then
    "DATETIME"
  else if contains "object" dtype_str then
    let max_len : nat :=
      match sample_values with
      | [] => 50
      | _ :: _ =>
          Nat.min (max_list ((λ val, py_len (str val)) <$> sample_values) + 20) 500
      end in
    if bool_decide (255 < max_len) then "TEXT"
    else "VARCHAR(" +:+ pretty max_len +:+ ")"
  else "VARCHAR(255)".

(** The tests on the column name alone, which come first. *)
Definition name_rule_applies (column_name : string) : bool :=
  contains "Code" column_name || endswith "_id" column_name
  || contains "Date" column_name || contains "date" (lower column_name)
  || contains "Time" column_name || contains "time" (lower column_name)
  || contains "Hours" column_name || contains "Duration" column_name
  || contains "Value" column_name || contains "Revenue" column_name
  || contains "Price" column_name.

End TypeInference.

Section Script.

(** The parsed JSON summary and a data frame read back from a flat file. *)
Context {json frame : Type}.
(** [with open(path, 'r') as f: json.load(f)] *)
Variable json_load : string → result json.
Variable read_csv : string → result frame.
(** [with open(path, 'w', encoding='utf-8') as f: f.write(text)] *)
Variable write_text : string → string → result unit.
(** [datetime.now().strftime('%Y-%m-%d %H:%M:%S')] *)
Variable timestamp : string.
(** The text-assembly helpers; what they compute does not matter to the
    control flow of the script, only that each returns or raises. *)
Variable generate_table_creation_sql : dict frame → json → result string.
Variable generate_data_insertion_sql : dict frame → result string.
Variable generate_foreign_key_constraints : result string.
Variable generate_sample_queries : result string.

Definition header : string :=
  "-- =====================================================" +:+ LF +:+
  "-- GEP DEMO DATABASE - COMPREHENSIVE SQL SCRIPT" +:+ LF +:+
  "-- Generated on: " +:+ timestamp +:+ LF +:+
  "-- Source: Gep DEMO DATA.xlsx" +:+ LF +:+
  "-- =====================================================" +:+ LF +:+ LF +:+
  "-- Create database (uncomment if needed)" +:+ LF +:+
  "-- CREATE DATABASE gep_demo;" +:+ LF +:+
  "-- USE gep_demo;" +:+ LF +:+ LF +:+
  "-- Enable foreign key checks" +:+ LF +:+
  "SET FOREIGN_KEY_CHECKS = 1;" +:+ LF +:+ LF.

(** [generate_sql_schema_and_data()]: no statement of it sits in a
    [try]. *)
Definition generate_sql_schema_and_data : io string :=
  (analysis_data <~ call (json_load Generated.analysis_json_path);~
   let sql_script := header in
   all_data <~ Generated.read_all_data read_csv;~
   tables <~ call (generate_table_creation_sql all_data analysis_data);~
   let sql_script := sql_script +:+ tables in
   inserts <~ call (generate_data_insertion_sql all_data);~
   let sql_script := sql_script +:+ inserts in
   constraints <~ call generate_foreign_key_constraints;~
   let sql_script := sql_script +:+ constraints in
   queries <~ call generate_sample_queries;~
   let sql_script := sql_script +:+ queries in
   call (write_text "/Users/mtz/Projects/GEP/backend/gep_demo_complete.sql" sql_script);~
   print "Complete SQL script generated: /Users/mtz/Projects/GEP/backend/gep_demo_complete.sql";~
   ret sql_script)%io.

(** The script run as [__main__]. *)
Definition main : io unit :=
  (sql_script <~ generate_sql_schema_and_data;~
   print (LF +:+ "SQL script generation completed successfully!");~
   print "File saved to: /Users/mtz/Projects/GEP/backend/gep_demo_complete.sql")%io.

End Script.

End SqlGenerator.

(** ** comprehensive_analysis_report.py *)

Module Report.

Import Effects Py.

Section Script.

Context {json frame : Type}.
Variable json_load : string → result json.
Variable read_csv : string → result frame.
Variable write_text : string → string → result unit.
(** The assembly of the report text from the summary and the frames. *)
Variable report_text : json → dict frame → result string.

(** [generate_comprehensive_report()]: no statement of it sits in a
    [try]; it returns [None]. *)
Definition generate_comprehensive_report : io unit :=
  (analysis_data <~ call (json_load Generated.analysis_json_path);~
   all_data <~ Generated.read_all_data read_csv;~
   report <~ call (report_text analysis_data all_data);~
   call (write_text "/Users/mtz/Projects/GEP/backend/comprehensive_analysis_report.md" report);~
   print "Comprehensive analysis report generated!";~
   print "Report saved to: /Users/mtz/Projects/GEP/backend/comprehensive_analysis_report.md")%io.

(** The script run as [__main__]. *)
Definition main : io unit := generate_comprehensive_report.

End Script.

End Report.

(** ** excel_reader.py: [convert_to_serializable] *)

Module Serializable.

(** A Python float: a number, an infinity or NaN. *)
Inductive float_value : Type :=
| Number (q : Q)
| Infinity (negative : bool)
| NaN.

Unset Elimination Schemes.

(** An array of an integer or floating dtype of at most 64 bits: numpy
    scalars, nested along its dimensions. *)
Inductive ndarray : Type :=
| NdInteger (z : Z)
| NdFloating (x : float_value)
| NdArray (items : list ndarray).

(** The objects the conversion tells apart.

    - [NpInteger]: an [np.integer] other than [np.timedelta64]; its [item()]
      is a Python int.
    - [NpFloating]: an [np.floating] of at most 64 bits; its [item()] is a
      Python float.
    - [NpLongDouble]: an [np.longdouble], an [np.floating] whose [item()] is
      the numpy scalar itself.
    - [NpTimedelta]: an [np.timedelta64], which numpy derives from
      [np.signedinteger]; it is given by the value of its [item()].
    - [NpScalar]: a numpy scalar of another kind ([np.bool_], [np.str_],
      [np.bytes_], [np.datetime64], complex, void), with the answer of
      [pd.isna].
    - [NpArray]: an array of an integer or floating dtype of at most 64
      bits, of one dimension or more.
    - [NpOtherArray]: any other array (of objects, booleans, strings, dates,
      of no dimension), given by the value of its [tolist()]; for an array of
      objects this is the list of its elements as they are.
    - [PyObject]: a Python object of another type, with the answer of
      [pd.isna].

    pandas containers, for which [pd.isna] answers with an array, are left
    out. *)
Inductive pyobj : Type :=
| PyDict (entries : list (pyobj * pyobj))
| PyList (elements : list pyobj)
| PyTuple (elements : list pyobj)
| NpInteger (z : Z)
| NpFloating (x : float_value)
| NpLongDouble (x : float_value)
| NpTimedelta (item : pyobj)
| NpScalar (na : bool) (text : string)
| NpArray (items : list ndarray)
| NpOtherArray (listed : pyobj)
| PyNone
| PyNaT
| PyFloat (x : float_value)
| PyInt (z : Z)
| PyStr (s : string)
| PyBool (b : bool)
| PyTimestamp (text : string)
| PyObject (na : bool) (text : string).

Set Elimination Schemes.

(** [a.tolist()]: nested lists of Python numbers. *)
Fixpoint tolist (a : ndarray) : pyobj :=
  match a with
  | NdInteger z => PyInt z
  | NdFloating x => PyFloat x
  | NdArray items => PyList (map tolist items)
  end.

(** [pd.isna(obj)] on the objects that reach the last test; a tuple is no
    scalar and no array, and the answer for it is [False]. *)
Definition isna (obj : pyobj) : bool :=
  match obj with
  | PyNone | PyNaT | PyFloat NaN => true
  | NpScalar na _ | PyObject na _ => na
  | _ => false
  end.

(** [convert_to_serializable(obj)]: the keys of a dictionary are kept, its
    values and the items of a list are converted, [obj.item()] is returned
    for an [np.integer] or [np.floating], [obj.tolist()] for an array, and
    [None] for what [pd.isna] holds for missing. *)
Fixpoint convert_to_serializable (obj : pyobj) : pyobj :=
  match obj with
  | PyDict entries =>
      PyDict (map (λ kv, (kv.1, convert_to_serializable kv.2)) entries)
  | PyList elements => PyList (map convert_to_serializable elements)
  | NpInteger z => PyInt z
  | NpFloating x => PyFloat x
  | NpLongDouble x => NpLongDouble x
  | NpTimedelta item => item
  | NpArray items => PyList (map tolist items)
  | NpOtherArray listed => listed
  | _ => if isna obj then PyNone else obj
  end.

(** An object that holds other objects. *)
Definition container (obj : pyobj) : Prop :=
  match obj with
  | PyDict _ | PyList _ | PyTuple _ | NpTimedelta _ | NpOtherArray _ => True
  | _ => False
  end.

(** No numpy scalar and no numpy array in the object, at any depth: among
    the keys and the values of dictionaries and the elements of lists and
    tuples. *)
Fixpoint numpy_free (obj : pyobj) : Prop :=
  match obj with
  | PyDict entries =>
      fold_right (λ kv P, (numpy_free kv.1 ∧ numpy_free kv.2) ∧ P) True entries
  | PyList elements | PyTuple elements =>
      fold_right (λ x P, numpy_free x ∧ P) True elements
  | NpInteger _ | NpFloating _ | NpLongDouble _ | NpTimedelta _ | NpScalar _ _
  | NpArray _ | NpOtherArray _ => False
  | _ => True
  end.

(** The objects all of whose numpy values the conversion reaches and turns
    into Python values: the keys of dictionaries and the elements of tuples
    hold none; a numpy scalar is an [np.integer], an [np.floating] of at most
    64 bits, or missing for [pd.isna]; the [item()] of an [np.timedelta64] and
    the [tolist()] of an array that is not of integers or floats hold none. *)
Fixpoint numpy_within_reach (obj : pyobj) : Prop :=
  match obj with
  | PyDict entries =>
      fold_right (λ kv P, (numpy_free kv.1 ∧ numpy_within_reach kv.2) ∧ P) True entries
  | PyList elements => fold_right (λ x P, numpy_within_reach x ∧ P) True elements
  | PyTuple elements => fold_right (λ x P, numpy_free x ∧ P) True elements
  | NpLongDouble _ => False
  | NpTimedelta item => numpy_free item
  | NpScalar na _ => na = true
  | NpOtherArray listed => numpy_free listed
  | _ => True
  end.

(** No NaN in an array of integers or floats. *)
Fixpoint no_nan_array (a : ndarray) : Prop :=
  match a with
  | NdInteger _ => True
  | NdFloating x => x ≠ NaN
  | NdArray items => fold_right (λ x P, no_nan_array x ∧ P) True items
  end.

(** The objects one conversion is enough for: among the values of
    dictionaries and the elements of lists, no [np.floating] and no array of
    integers or floats holds a NaN, and the [item()] of an [np.timedelta64]
    and the [tolist()] of any other array are left as they are by the
    conversion. *)
Fixpoint converted_at_once (obj : pyobj) : Prop :=
  match obj with
  | PyDict entries => fold_right (λ kv P, converted_at_once kv.2 ∧ P) True entries
  | PyList elements => fold_right (λ x P, converted_at_once x ∧ P) True elements
  | NpFloating x => x ≠ NaN
  | NpTimedelta item => convert_to_serializable item = item
  | NpArray items => fold_right (λ x P, no_nan_array x ∧ P) True items
  | NpOtherArray listed => convert_to_serializable listed = listed
  | _ => True
  end.

End Serializable.

(** ** comprehensive_analysis_report.py: the relationships of the report *)

Module ReportText.

Import ExcelReader.

(** [[rel for rel in analysis_data['potential_relationships']
      if rel['match_percentage'] == 100.0]] *)
Definition primary_relationships (potential_relationships : list relationship)
  : list relationship :=
  filter (λ rel, (match_percentage rel == 100)%Q) potential_relationships.

(** [primary_relationships[:10]], the relationships the report lists. *)
Definition listed_relationships (potential_relationships : list relationship)
  : list relationship :=
  take 10 (primary_relationships potential_relationships).

End ReportText.

(** ** sql_generator.py: the text of the script *)

Module SqlText.

Import Effects Py ExcelReader SqlGenerator.

(** [s.replace(old, new)] for a non-empty [old]: the occurrences of [old]
    are taken from left to right, without overlap.  [skip] counts the
    characters of an occurrence that are still to be passed over. *)
Fixpoint replace_from (old new : string) (skip : nat) (s : string) : string :=
  match s with
  | EmptyString => EmptyString
  | String c s' =>
      match skip with
      | S skip' => replace_from old new skip' s'
      | 0 =>
          if startswith old s
          then new +:+ replace_from old new (String.length old - 1) s'
          else String c (replace_from old new 0 s')
      end
  end.

(** [s.replace(old, new)]; for an empty [old], Python puts [new] before
    every character and at the end. *)
Definition replace (old new s : string) : string :=
  match old with
  | EmptyString =>
      new +:+ String.concat new ((λ c, String c EmptyString) <$> list_ascii_of_string s)
          +:+ (if decide (s = EmptyString) then EmptyString else new)
  | String _ _ => replace_from old new 0 s
  end.

(** A value of a row as the insertion loop tells values apart; a missing
    value ([pd.isna(val)]) is [None].  A number carries [str(val)], a
    datetime its [strftime('%Y-%m-%d %H:%M:%S')], any other object its
    [str(val)]. *)
Inductive rowval : Type :=
| VString (s : string)
| VNumber (text : string)
| VDatetime (text : string)
| VOther (text : string).

(** The [if]/[elif] chain on one value of a row. *)
Definition render_value (val : option rowval) : string :=
  match val with
  | None => "NULL"
  | Some (VString val) =>
      let escaped_val := replace "'" "''" val in
      "'" +:+ escaped_val +:+ "'"
  | Some (VNumber text) => text
  | Some (VDatetime text) => "'" +:+ text +:+ "'"
  | Some (VOther text) => "'" +:+ text +:+ "'"
  end.

(** One row: [f"    ({', '.join(values)})"]. *)
Definition render_row (row : list (option rowval)) : string :=
  "    (" +:+ String.concat ", " (render_value <$> row) +:+ ")".

(** [table_order], the same list in both generators. *)
Definition table_order : list string :=
  [ "Client"; "Resources"; "Installation"; "Contract"; "Contract Service (Project)";
    "Installation Services (Sub Pro)"; "Visits" ]%string.

Definition banner (title : string) : string :=
  LF +:+ "-- =====================================================" +:+ LF
  +:+ "-- " +:+ title +:+ LF
  +:+ "-- =====================================================" +:+ LF +:+ LF.

(** The reading of a quoted literal by the SQL standard: after the opening
    quote, two quotes stand for one and a single quote ends the literal; the
    result is the text and what follows the literal. *)
Fixpoint read_quoted (s : string) : option (string * string) :=
  match s with
  | EmptyString => None
  | String c s' =>
      if decide (c = "'"%char) then
        match s' with
        | String c' s'' =>
            if decide (c' = "'"%char) then
              '(text, rest) ← read_quoted s''; Some (String "'" text, rest)
            else Some (EmptyString, s')
        | EmptyString => Some (EmptyString, EmptyString)
        end
      else '(text, rest) ← read_quoted s'; Some (String c text, rest)
  end.

Definition read_literal (s : string) : option (string * string) :=
  match s with
  | String c s' => if decide (c = "'"%char) then read_quoted s' else None
  | EmptyString => None
  end.

Section Text.

(** The cells of a column as pandas holds them, their [str], and Python's
    [str.lower] and [str.strip] on text. *)
Context {cell : Type} `{EqDecision cell}.
Variable str : cell → string.
Variable str_lower : string → string.
Variable str_strip : string → string.

(** A frame read back from a flat file: its columns, and its rows as
    [df.iterrows()] yields them. *)
Record SqlFrame : Type := MkSqlFrame {
  frame : @DataFrame cell;
  iterrows : list (list (option rowval))
}.

Definition safe_table_name (table_name : string) : string :=
  str_lower (replace ")" "" (replace "(" "" (replace " " "_" table_name))).

Definition safe_col_name (col : string) : string :=
  str_lower (replace "/" "_" (replace ")" "" (replace "(" "" (replace " " "_" col)))).

(** The statistics of a column and the type inferred from them, as the loop
    of [generate_table_creation_sql] computes them. *)
Definition column_sql_type (df : SqlFrame) (col : string) : string :=
  let column := getitem (frame df) col in
  let unique_count := nunique column in
  let row_count := len (frame df) in
  let sample_values := take 5 (dropna column) in
  map_pandas_to_sql_type str (series_dtype column) col sample_values unique_count row_count.

(** The line of one column of a [CREATE TABLE]. *)
Definition column_line (df : SqlFrame) (col : string) : string :=
  let sql_type := column_sql_type df col in
  let sql_type :=
    if contains "PRIMARY KEY" sql_type then replace " PRIMARY KEY" "" sql_type
    else sql_type in
  let null_constraint : string :=
    if bool_decide (isnull_sum (getitem (frame df) col) = 0) then "NOT NULL" else "" in
  str_strip ("    " +:+ safe_col_name col +:+ " " +:+ sql_type +:+ " " +:+ null_constraint).

(** [primary_keys] after the loop over the columns. *)
Definition primary_keys (df : SqlFrame) : list string :=
  safe_col_name <$>
    filter (λ col, contains "PRIMARY KEY" (column_sql_type df col) = true)
           (columns (frame df)).

(** What the loop of [generate_table_creation_sql] adds for one table. *)
Definition create_table (table_name : string) (df : SqlFrame) : string :=
  "-- Create " +:+ table_name +:+ " table" +:+ LF
  +:+ "DROP TABLE IF EXISTS " +:+ safe_table_name table_name +:+ ";" +:+ LF
  +:+ "CREATE TABLE " +:+ safe_table_name table_name +:+ " (" +:+ LF
  +:+ String.concat ("," +:+ LF) (column_line df <$> columns (frame df))
  +:+ match primary_keys df with
      | [] => ""
      | _ :: _ =>
          "," +:+ LF +:+ "    PRIMARY KEY (" +:+ String.concat ", " (primary_keys df) +:+ ")"
      end
  +:+ LF +:+ ");" +:+ LF +:+ LF.

(** [generate_table_creation_sql(all_data, analysis_data)]; the second
    argument is not used by the function. *)
Definition generate_table_creation_sql {json : Type}
    (all_data : dict SqlFrame) (analysis_data : json) : string :=
  foldl (λ sql table_name,
           match item all_data table_name with
           | None => sql
           | Some df => sql +:+ create_table table_name df
           end)
        (banner "TABLE CREATION STATEMENTS") table_order.

(** What the loop of [generate_data_insertion_sql] adds for one table. *)
Definition insert_into (table_name : string) (df : SqlFrame) : string :=
  let safe_columns := safe_col_name <$> columns (frame df) in
  let rows := render_row <$> iterrows df in
  "-- Insert data into " +:+ table_name +:+ LF
  +:+ "INSERT INTO " +:+ safe_table_name table_name
  +:+ " (" +:+ String.concat ", " safe_columns +:+ ") VALUES" +:+ LF
  +:+ String.concat ("," +:+ LF) rows
  +:+ ";" +:+ LF +:+ LF.

(** [generate_data_insertion_sql(all_data)] *)
Definition generate_data_insertion_sql (all_data : dict SqlFrame) : string :=
  foldl (λ sql table_name,
           match item all_data table_name with
           | None => sql
           | Some df => sql +:+ insert_into table_name df
           end)
        (banner "DATA INSERTION STATEMENTS") table_order.

End Text.

End SqlText.

(** ** Sample workbooks

    Integer cells, rendered by [str] in decimal. *)

Module Sample.

Import Py ExcelReader.

Definition ints (l : list (option Z)) : @Series Z := MkSeries "int64" l.

(** A frame with the given row count and named columns. *)
Definition frame (rows : nat) (cols : dict (@Series Z)) : @DataFrame Z :=
  MkDataFrame rows (keys cols) (λ col, default (ints []) (item cols col)).

Definition str_int (z : Z) : string := pretty z.

(** Two iteration orders of the same sets. *)
Definition order_a : set_order := SetOrder elements (λ s, reflexivity (elements s)).
Definition order_b : set_order :=
  SetOrder (λ s, reverse (elements s)) (λ s, reverse_Permutation (elements s)).

(** X holds five values, Y the same five and three more. *)
Definition X : @Series Z := ints (Some <$> [1; 2; 3; 4; 5]%Z).
Definition Y : @Series Z := ints (Some <$> [1; 2; 3; 4; 5; 6; 7; 8]%Z).

(** A column with no present value, in a sheet of two rows. *)
Definition blank : @Series Z := MkSeries "float64" [None; None].

(** Two sheets that share the column name [id] and its values. *)
Definition sheet_id : @DataFrame Z := frame 2 [("id"%string, ints [Some 1; Some 2]%Z)].
Definition same_named : dict (@DataFrame Z) :=
  [ ("A"%string, sheet_id); ("B"%string, sheet_id) ].

(** Two sheets whose columns [a] and [b] hold the same values. *)
Definition sheet_a : @DataFrame Z := frame 2 [("a"%string, ints [Some 1; Some 2]%Z)].
Definition sheet_b : @DataFrame Z := frame 2 [("b"%string, ints [Some 1; Some 2]%Z)].
Definition mirrored : dict (@DataFrame Z) :=
  [ ("A"%string, sheet_a); ("B"%string, sheet_b) ].

(** A sheet with a header row and no data row. *)
Definition header_only : @DataFrame Z := frame 0 [("a"%string, MkSeries "object" [])].

(** A sheet of three rows: a key column, a column with a repeated value,
    a column with a missing entry and a column without a present value. *)
Definition three_rows : @DataFrame Z :=
  frame 3 [ ("k"%string, ints [Some 1; Some 2; Some 3]%Z);
            ("r"%string, ints [Some 1; Some 1; Some 3]%Z);
            ("m"%string, MkSeries "float64" [Some 1; None; Some 3]%Z);
            ("e"%string, MkSeries "float64" [None; None; None]) ].

(** An environment in which no input file exists: every read raises. *)
Definition no_such_file (path : string) : string :=
  "[Errno 2] No such file or directory: '" +:+ path +:+ "'".

Definition missing {A} (path : string) : Effects.result A :=
  Effects.Raise (no_such_file path).

(** An environment in which the workbook has the sheets A and B and the
    sheet B cannot be read. *)
Definition two_sheets (path : string) : Effects.result (list string) :=
  Effects.Return ["A"; "B"]%string.

Definition unreadable_B (path sheet_name : string) : Effects.result (@DataFrame Z) :=
  if decide (sheet_name = "A"%string) then Effects.Return sheet_a
  else Effects.Raise "Worksheet named 'B' not found".

(** Writers that succeed, and plain renderings for console messages. *)
Definition written {A} (a : A) (path : string) : Effects.result unit := Effects.Return tt.
Definition show_names (l : list string) : string := String.concat ", " l.
Definition show_cells (l : list Z) : string := String.concat ", " (str_int <$> l).
Definition show_head (df : @DataFrame Z) : string := String.concat " " (columns df).
Definition show_pct (q : Q) : string := pretty (Qnum q / Z.pos (Qden q))%Z.

(** The extractor in an environment given by its two readers. *)
Definition extract (ExcelFile : string → Effects.result (list string))
    (read_excel : string → string → Effects.result (@DataFrame Z))
    (file_path : string) : Effects.io (@analysis Z) :=
  analyze_excel_file str_int ExcelFile read_excel written written
    show_names show_cells show_head show_pct order_a file_path.



(** An environment in which both sheets of the workbook can be read. *)
Definition sheet_of (sheet_name : string) : @DataFrame Z :=
  if decide (sheet_name = "A"%string) then sheet_a else sheet_b.

Definition readable (path sheet_name : string) : Effects.result (@DataFrame Z) :=
  Effects.Return (sheet_of sheet_name).

(** A workbook without sheets. *)
Definition no_sheets (path : string) : Effects.result (list string) := Effects.Return [].

(** A table with two key-named columns and an amount. *)
Definition contracts : @SqlText.SqlFrame Z :=
  SqlText.MkSqlFrame
    (frame 2 [ ("Company_Code"%string, ints [Some 1; Some 1]%Z);
               ("Contract_Code"%string, ints [Some 10; Some 11]%Z);
               ("Contract Value"%string, MkSeries "float64" [Some 500; None]%Z) ])
    [ [Some (SqlText.VNumber "1.0"); Some (SqlText.VNumber "10.0");
       Some (SqlText.VNumber "500.0")];
      [Some (SqlText.VNumber "1.0"); Some (SqlText.VNumber "11.0"); None] ].

(** Flat files of which the one of the visits is missing. *)
Definition visits_path : string := "/Users/mtz/Projects/GEP/backend/Visits_data.csv".

Definition without_visits (path : string) : Effects.result unit :=
  if decide (path = visits_path) then missing path else Effects.Return tt.

End Sample.

(** * Properties *)

(** ** Facts on percentages *)

Module PercentFacts.

Import Percent.

Lemma ratio100_bounds k n : n ≠ 0 → k ≤ n → (0 <= ratio100 k n <= 100)%Q.
Proof.
  intros Hn Hk. unfold ratio100, of_nat, Qle, Qdiv, Qmult, Qinv. simpl.
  destruct (Z.of_nat n) as [|p|p] eqn:E; [lia| |lia]. simpl. split; nia.
Qed.

Lemma ratio100_full n : n ≠ 0 → (ratio100 n n == 100)%Q.
Proof.
  intros Hn. unfold ratio100, of_nat, Qeq, Qdiv, Qmult, Qinv. simpl.
  destruct (Z.of_nat n) as [|p|p] eqn:E; [lia| |lia]. simpl. nia.
Qed.

Lemma ratio100_zero n : (ratio100 0 n == 0)%Q.
Proof. unfold ratio100, of_nat, Qeq, Qdiv, Qmult. simpl. lia. Qed.

(** The threshold test [ratio100 k n > 50] on counts. *)
Lemma ratio100_gt_50 k n : n ≠ 0 → (50 < ratio100 k n)%Q ↔ n < 2 * k.
Proof.
  intros Hn. unfold ratio100, of_nat, Qlt, Qdiv, Qmult, Qinv. simpl.
  destruct (Z.of_nat n) as [|p|p] eqn:E; [lia| |lia]. simpl. nia.
Qed.

End PercentFacts.

(** ** The percentages of the specification in binary64 *)

Module Binary64Facts.

Import PrimFloat.

Example five_of_five : Binary64.ratio100 5 5 = 100%float.
Proof. reflexivity. Qed.

Example five_of_eight : Binary64.ratio100 5 8 = 62.5%float.
Proof. reflexivity. Qed.

Example half_is_not_above :
  Binary64.gt_50 (Binary64.ratio100 1 2) = false
  ∧ Binary64.gt_50 (Binary64.ratio100 4 8) = false
  ∧ Binary64.gt_50 (Binary64.ratio100 5 8) = true.
Proof. by vm_compute. Qed.

End Binary64Facts.

(** ** Facts on dictionaries and [enumerate] *)

Module PyFacts.

Import Py.

Lemma elem_of_enumerate {X} (l : list X) i x :
  (i, x) ∈ enumerate l ↔ l !! i = Some x.
Proof.
  unfold enumerate. rewrite elem_of_lookup_imap. split.
  - intros (j & y & Heq & Hl). by simplify_eq.
  - intros Hl. by exists i, x.
Qed.

Lemma keys_cons {V} k (v : V) (d : dict V) : keys ((k, v) :: d) = k :: keys d.
Proof. reflexivity. Qed.

Lemma keys_setitem {V} (d : dict V) k v :
  keys (setitem d k v) = if bool_decide (k ∈ keys d) then keys d else keys d ++ [k].
Proof.
  induction d as [|[k' v'] d IH]; [done|]. cbn [setitem].
  destruct (decide (k' = k)) as [->|Hne]; rewrite !keys_cons.
  - by rewrite bool_decide_eq_true_2 by left.
  - rewrite IH. case_bool_decide as Hk.
    + by rewrite bool_decide_eq_true_2 by by right.
    + rewrite bool_decide_eq_false_2; [done|].
      intros [?|?]%elem_of_cons; congruence.
Qed.

Lemma setitem_wf {V} (d : dict V) k v : dict_wf d → dict_wf (setitem d k v).
Proof.
  unfold dict_wf. intros Hd. rewrite keys_setitem. case_bool_decide as Hk; [done|].
  apply NoDup_app. split_and!; [done| |apply NoDup_singleton].
  intros x Hx Hx'. apply list_elem_of_singleton in Hx'. by subst.
Qed.

(** In a well-formed dictionary, [d[k]] is the value stored with [k]. *)
Lemma item_Some {V} (d : dict V) k v :
  dict_wf d → item d k = Some v ↔ (k, v) ∈ d.
Proof.
  unfold dict_wf, keys. induction d as [|[k' v'] d IH]; simpl; intros Hd.
  - split; [done|]. by intros ?%elem_of_nil.
  - apply NoDup_cons in Hd as [Hk' Hd]. destruct (decide (k' = k)) as [->|Hne].
    + split; [intros; simplify_eq; by left|].
      intros [?|Hin]%elem_of_cons; [by simplify_eq|].
      destruct Hk'. apply list_elem_of_fmap. by exists (k, v).
    + rewrite IH by done. split; [by right|].
      intros [?|?]%elem_of_cons; [by simplify_eq|done].
Qed.

(** Reading a key of the dictionary never raises. *)
Lemma item_keys {V} (d : dict V) k : k ∈ keys d → is_Some (item d k).
Proof.
  unfold keys. induction d as [|[k' v'] d IH]; simpl.
  - by intros ?%elem_of_nil.
  - intros Hk. destruct (decide (k' = k)); [by eexists|].
    apply IH. by apply elem_of_cons in Hk as [?|?]; [congruence|].
Qed.

End PyFacts.

(** ** The column profiler *)

Module ProfilerFacts.

Import Py PyFacts ExcelReader.

Section Facts.

Context {cell : Type} `{EqDecision cell}.
Implicit Types (df : @DataFrame cell) (s : @Series cell).

Lemma item_setitem {V} (d : dict V) k v k' :
  item (setitem d k v) k' = if decide (k = k') then Some v else item d k'.
Proof.
  induction d as [|[k0 v0] d IH]; simpl.
  - by destruct (decide (k = k')).
  - destruct (decide (k0 = k)) as [->|Hne]; simpl.
    + by destruct (decide (k = k')).
    + rewrite IH. destruct (decide (k0 = k')) as [->|?]; [|done].
      by rewrite decide_False by done.
Qed.

(** The entry that [column_info] holds for a column of the frame is the
    one computed by the loop body for that column. *)
Lemma item_column_info df col :
  col ∈ columns df → item (column_info df) col = Some (analyze_column df col).
Proof.
  unfold column_info. generalize (@nil (string * @col_info cell)).
  induction (columns df) as [|c cs IH] using rev_ind; intros acc Hin.
  - by apply elem_of_nil in Hin.
  - rewrite foldl_app. simpl. rewrite item_setitem.
    destruct (decide (c = col)) as [->|Hne]; [done|].
    apply IH. apply elem_of_app in Hin as [?|Hin]; [done|].
    apply list_elem_of_singleton in Hin. congruence.
Qed.

Lemma analyze_column_counts df col :
  null_count (analyze_column df col) = isnull_sum (getitem df col)
  ∧ unique_count (analyze_column df col) = nunique (getitem df col)
  ∧ non_null_count (analyze_column df col) = count (getitem df col).
Proof. unfold analyze_column. by case_bool_decide. Qed.

Lemma analyze_column_flag df col :
  potential_primary_key (analyze_column df col) = true
  ↔ nunique (getitem df col) = len df ∧ isnull_sum (getitem df col) = 0.
Proof.
  unfold analyze_column.
  case_bool_decide as Hd; simpl; [by split|].
  split; [done|]. intros Hp. by destruct Hd.
Qed.

Lemma all_missing_dropna s : all_missing s → dropna s = [].
Proof.
  unfold all_missing, dropna. intros Hall.
  induction Hall as [|v vs Hv _ IH]; [done|]. by subst.
Qed.

Lemma all_missing_isnull_sum s :
  all_missing s → isnull_sum s = length (series_values s).
Proof.
  unfold all_missing, isnull_sum. intros Hall.
  induction Hall as [|v vs Hv _ IH]; [done|]. subst.
  rewrite filter_cons_True by done. simpl. by rewrite IH.
Qed.

(** C6: for every column of a sheet, the profiler's entry for it has the
    potential-primary-key flag set if and only if the column has no
    missing value and its distinct-value count equals the row count of
    the sheet. *)
Theorem C6_key_flag df col :
  col ∈ columns df →
  ∃ info, item (column_info df) col = Some info
    ∧ null_count info = isnull_sum (getitem df col)
    ∧ unique_count info = nunique (getitem df col)
    ∧ (potential_primary_key info = true
       ↔ null_count info = 0 ∧ unique_count info = len df).
Proof.
  intros Hcol. exists (analyze_column df col).
  destruct (analyze_column_counts df col) as (Hn & Hu & _).
  split_and!; [by apply item_column_info|done|done|].
  rewrite analyze_column_flag, Hn, Hu. split; intros [? ?]; by split.
Qed.

(** C7, as the code has it: a column all of whose entries are missing
    gets a distinct-value count of 0; in a sheet with at least one row
    its flag is not set. *)
Theorem C7_all_missing_column df col :
  DataFrame_wf df → col ∈ columns df → all_missing (getitem df col) →
  ∃ info, item (column_info df) col = Some info
    ∧ unique_count info = 0
    ∧ (0 < len df → potential_primary_key info = false).
Proof.
  intros Hwf Hcol Hmiss. exists (analyze_column df col).
  destruct (analyze_column_counts df col) as (Hn & Hu & _).
  split_and!; [by apply item_column_info| |].
  - rewrite Hu. unfold nunique. by rewrite all_missing_dropna.
  - intros Hrows. apply not_true_is_false. rewrite analyze_column_flag.
    rewrite all_missing_isnull_sum, (Hwf col Hcol) by done. lia.
Qed.

End Facts.

Import Sample.

Lemma three_rows_wf : DataFrame_wf three_rows.
Proof.
  intros col Hcol. cbn in Hcol.
  repeat (apply elem_of_cons in Hcol as [->|Hcol]; [reflexivity|]).
  by apply elem_of_nil in Hcol.
Qed.

Lemma C6_key_flag_witness :
  "k"%string ∈ columns three_rows
  ∧ ∃ info, item (column_info three_rows) "k" = Some info
      ∧ null_count info = isnull_sum (getitem three_rows "k")
      ∧ unique_count info = nunique (getitem three_rows "k")
      ∧ (potential_primary_key info = true
         ↔ null_count info = 0 ∧ unique_count info = len three_rows).
Proof.
  assert (Hin : "k"%string ∈ columns three_rows) by (cbn; left).
  split; [exact Hin|]. exact (C6_key_flag three_rows "k" Hin).
Defined.

Lemma C7_all_missing_column_witness :
  DataFrame_wf three_rows ∧ "e"%string ∈ columns three_rows
  ∧ all_missing (getitem three_rows "e")
  ∧ ∃ info, item (column_info three_rows) "e" = Some info
      ∧ unique_count info = 0
      ∧ (0 < len three_rows → potential_primary_key info = false).
Proof.
  assert (Hin : "e"%string ∈ columns three_rows) by (cbn; do 3 right; left).
  assert (Hmiss : all_missing (getitem three_rows "e"))
    by (cbn; repeat constructor).
  split_and!; [exact three_rows_wf|exact Hin|exact Hmiss|].
  exact (C7_all_missing_column three_rows "e" three_rows_wf Hin Hmiss).
Defined.

(** C7 as stated fails on a sheet with a header and no rows: every entry of
    its column is missing (there is none), and the column is flagged. *)
Lemma C7_zero_rows_counterexample :
  DataFrame_wf header_only ∧ "a"%string ∈ columns header_only
  ∧ all_missing (getitem header_only "a")
  ∧ ∃ info, item (column_info header_only) "a" = Some info
      ∧ unique_count info = 0
      ∧ potential_primary_key info = true.
Proof.
  split_and!.
  - intros col Hcol. cbn in Hcol. apply list_elem_of_singleton in Hcol as ->.
    reflexivity.
  - cbn. left.
  - cbn. constructor.
  - eexists. split_and!; reflexivity.
Qed.

End ProfilerFacts.

(** ** The similarity of two columns *)

Module SimilarityFacts.

Import Py Percent PercentFacts ExcelReader.

Section Facts.

Context {cell : Type} `{EqDecision cell}.
Variable astype_str : cell → string.
Implicit Types (col : @Series cell) (h : set_order).

Abbreviation strs := (distinct_strs astype_str).
Abbreviation similarity_of := (calculate_column_similarity astype_str).

Lemma distinct_strs_empty col : dropna col = [] → strs col = ∅.
Proof. unfold distinct_strs. by intros ->. Qed.

Lemma distinct_strs_size col : dropna col ≠ [] → size (strs col) ≠ 0.
Proof.
  unfold distinct_strs. destruct (dropna col) as [|c cs]; [done|]. intros _.
  simpl. intros Hz. apply size_empty_inv in Hz.
  assert (astype_str c ∈ ({[astype_str c]} ∪ list_to_set (astype_str <$> cs) : gset string))
    as Hin by (apply elem_of_union_l; by apply elem_of_singleton).
  rewrite Hz in Hin. by apply not_elem_of_empty in Hin.
Qed.

Lemma distinct_strs_nonempty col : strs col ≠ ∅ → dropna col ≠ [].
Proof. intros Hne Hnil. by apply Hne, distinct_strs_empty. Qed.

(** One side without a present value: the early return. *)
Lemma similarity_early h col1 col2 :
  dropna col1 = [] ∨ dropna col2 = [] →
  similarity_of h col1 col2 = Similarity 0 [].
Proof.
  intros Hnil. unfold calculate_column_similarity.
  rewrite bool_decide_eq_true_2; [done|].
  destruct Hnil as [-> | ->]; [by left|by right].
Qed.

(** Both sides with a present value: the quotient of the set sizes. *)
Lemma similarity_late h col1 col2 :
  dropna col1 ≠ [] → dropna col2 ≠ [] →
  similarity_of h col1 col2 =
    Similarity (ratio100 (size (strs col1 ∩ strs col2)) (size (strs col1)))
               (set_to_list h (strs col1 ∩ strs col2)).
Proof.
  intros H1 H2. unfold calculate_column_similarity.
  rewrite bool_decide_eq_false_2.
  - fold (strs col1) (strs col2).
    by rewrite bool_decide_eq_false_2 by by apply distinct_strs_size.
  - intros [Hl|Hl]; apply length_zero_iff_nil in Hl; done.
Qed.

Lemma match_percentage_quotient h col1 col2 :
  dropna col1 ≠ [] →
  (sim_match_percentage (similarity_of h col1 col2)
   == ratio100 (size (strs col1 ∩ strs col2)) (size (strs col1)))%Q.
Proof.
  intros H1. destruct (decide (dropna col2 = [])) as [H2|H2].
  - rewrite similarity_early by by right. simpl.
    rewrite (distinct_strs_empty col2 H2).
    rewrite (right_absorb_L ∅ (∩)), size_empty. symmetry. apply ratio100_zero.
  - by rewrite similarity_late.
Qed.

Lemma match_percentage_bounds h col1 col2 :
  (0 <= sim_match_percentage (similarity_of h col1 col2) <= 100)%Q.
Proof.
  destruct (decide (dropna col1 = [] ∨ dropna col2 = [])) as [Hnil|Hnn].
  - rewrite similarity_early by done. simpl. split; by vm_compute.
  - rewrite similarity_late by (intros ?; apply Hnn; auto). simpl.
    apply ratio100_bounds.
    + apply distinct_strs_size. intros ?; apply Hnn; auto.
    + apply subseteq_size, intersection_subseteq_l.
Qed.

Lemma match_percentage_subset h col1 col2 :
  dropna col1 ≠ [] → strs col1 ⊆ strs col2 →
  (sim_match_percentage (similarity_of h col1 col2) == 100)%Q.
Proof.
  intros H1 Hsub.
  assert (dropna col2 ≠ []) as H2.
  { apply distinct_strs_nonempty. intros Hempty.
    apply (distinct_strs_size col1 H1).
    rewrite Hempty in Hsub. apply equiv_empty_L in Hsub. rewrite Hsub.
    apply size_empty. }
  rewrite similarity_late by done. simpl.
  rewrite (subseteq_intersection_1_L _ _ Hsub).
  by apply ratio100_full, distinct_strs_size.
Qed.

End Facts.

End SimilarityFacts.

(** ** Relationship inference *)

Module RelationshipFacts.

Import Py PyFacts Percent PercentFacts ExcelReader SimilarityFacts.

(** *** The sort *)

Lemma sort_insert_perm r l : sort_insert r l ≡ₚ r :: l.
Proof.
  induction l as [|r' l IH]; simpl; [done|].
  destruct (Qlt_le_dec _ _); [|done].
  rewrite IH. apply Permutation_swap.
Qed.

Lemma sort_perm l : sort_by_match_percentage_desc l ≡ₚ l.
Proof.
  induction l as [|r l IH]; simpl; [done|].
  by rewrite sort_insert_perm, IH.
Qed.

#[local] Instance desc_trans : Transitive desc.
Proof. intros a b c Hab Hbc. unfold desc in *. by apply Qle_trans with (match_percentage b). Qed.

Lemma sort_insert_sorted r l : Sorted desc l → Sorted desc (sort_insert r l).
Proof.
  induction l as [|r' l IH]; simpl; intros Hl.
  - by repeat constructor.
  - apply Sorted_inv in Hl as [Hl Hhd].
    destruct (Qlt_le_dec _ _) as [Hlt|Hle].
    + constructor; [by apply IH|].
      destruct l as [|r'' l]; simpl.
      * constructor. by apply Qlt_le_weak.
      * destruct (Qlt_le_dec _ _); constructor.
        -- by apply HdRel_inv in Hhd.
        -- by apply Qlt_le_weak.
    + constructor; [by constructor|]. by constructor.
Qed.

Lemma sort_sorted l : StronglySorted desc (sort_by_match_percentage_desc l).
Proof.
  apply Sorted_StronglySorted; [apply _|].
  induction l as [|r l IH]; simpl; [constructor|]. by apply sort_insert_sorted.
Qed.

(** An entry only moves past entries of a strictly larger percentage, so
    the entries of any one percentage keep their order. *)
Lemma sort_insert_stable q r l :
  filter (λ x, (match_percentage x == q)%Q) (sort_insert r l)
  = filter (λ x, (match_percentage x == q)%Q) (r :: l).
Proof.
  induction l as [|r' l IH]; simpl; [done|].
  destruct (Qlt_le_dec _ _) as [Hlt|Hle]; [|done].
  rewrite filter_cons, IH, !filter_cons.
  destruct (decide (match_percentage r' == q)%Q) as [Hr'|?];
    destruct (decide (match_percentage r == q)%Q) as [Hr|?]; try done.
  rewrite Hr, Hr' in Hlt. by apply Qlt_irrefl in Hlt.
Qed.

Lemma sort_stable q l :
  filter (λ x, (match_percentage x == q)%Q) (sort_by_match_percentage_desc l)
  = filter (λ x, (match_percentage x == q)%Q) l.
Proof.
  induction l as [|r l IH]; simpl; [done|].
  by rewrite sort_insert_stable, !filter_cons, IH.
Qed.

(** A list in descending order is determined by its entries of each
    percentage, taken in their order: the result of a stable descending sort
    does not depend on the algorithm that computes it. *)
Lemma stable_sorted_unique l1 l2 :
  StronglySorted desc l1 → StronglySorted desc l2 →
  (∀ q, filter (λ x, (match_percentage x == q)%Q) l1
        = filter (λ x, (match_percentage x == q)%Q) l2) →
  l1 = l2.
Proof.
  intros Hs1. revert l2.
  induction Hs1 as [|x l1 Hs1 IH Hx]; intros l2 Hs2 Hfilter.
  - destruct l2 as [|y l2]; [done|].
    specialize (Hfilter (match_percentage y)).
    rewrite filter_nil, filter_cons_True in Hfilter by reflexivity. discriminate.
  - destruct Hs2 as [|y l2 Hs2 Hy].
    + specialize (Hfilter (match_percentage x)).
      rewrite filter_nil, filter_cons_True in Hfilter by reflexivity. discriminate.
    + assert (x = y) as <-.
      { pose proof (Hfilter (match_percentage x)) as Fx.
        pose proof (Hfilter (match_percentage y)) as Fy.
        rewrite (filter_cons_True _ x) in Fx by reflexivity.
        rewrite (filter_cons_True _ y) in Fy by reflexivity.
        destruct (decide (match_percentage y == match_percentage x)%Q) as [Heq|Hne].
        { rewrite filter_cons_True in Fx by done. congruence. }
        rewrite filter_cons_False in Fx by done.
        rewrite filter_cons_False in Fy by (intros ?; by apply Hne).
        assert (x ∈ l2) as Hx2.
        { eapply (list_elem_of_filter (λ z, (match_percentage z == match_percentage x)%Q)).
          rewrite <- Fx. left. }
        assert (y ∈ l1) as Hy1.
        { eapply (list_elem_of_filter (λ z, (match_percentage z == match_percentage y)%Q)).
          rewrite Fy. left. }
        rewrite Forall_forall in Hx, Hy.
        destruct Hne. apply Qle_antisym; [apply (Hx y Hy1)|apply (Hy x Hx2)]. }
      f_equal. apply IH; [done|]. intros q. specialize (Hfilter q).
      rewrite !filter_cons in Hfilter.
      destruct (decide (match_percentage x == q)%Q); congruence.
Qed.

(** Whatever list a stable descending sort returns for [l], it is the one
    computed here. *)
Lemma sort_is_the_stable_sort l l' :
  StronglySorted desc l' →
  (∀ q, filter (λ x, (match_percentage x == q)%Q) l'
        = filter (λ x, (match_percentage x == q)%Q) l) →
  l' = sort_by_match_percentage_desc l.
Proof.
  intros Hs Hf. apply stable_sorted_unique; [done|apply sort_sorted|].
  intros q. by rewrite Hf, sort_stable.
Qed.

Lemma sort_insert_same r1 r2 l1 l2 :
  same_candidate r1 r2 → Forall2 same_candidate l1 l2 →
  Forall2 same_candidate (sort_insert r1 l1) (sort_insert r2 l2).
Proof.
  intros Hr Hl. induction Hl as [|x y l1 l2 Hxy Hl IH]; simpl.
  - constructor; [done|constructor].
  - assert (match_percentage r1 = match_percentage r2) as -> by apply Hr.
    assert (match_percentage x = match_percentage y) as -> by apply Hxy.
    destruct (Qlt_le_dec _ _).
    + by constructor.
    + constructor; [done|]. by constructor.
Qed.

Lemma sort_same l1 l2 :
  Forall2 same_candidate l1 l2 →
  Forall2 same_candidate (sort_by_match_percentage_desc l1)
                         (sort_by_match_percentage_desc l2).
Proof.
  induction 1; simpl; [constructor|]. by apply sort_insert_same.
Qed.

(** *** The candidates *)

Section Candidates.

Context {cell : Type} `{EqDecision cell}.
Variable astype_str : cell → string.
Implicit Types (data : dict (@DataFrame cell)) (h : set_order) (r : relationship).

Abbreviation similarity_of := (calculate_column_similarity astype_str).

(** What the nested loops append, read off the loops. *)
Lemma elem_of_candidates h data r :
  r ∈ relationship_candidates astype_str h data ↔
  ∃ i j sheet1 sheet2 df1 df2 col1 col2,
    keys data !! i = Some sheet1 ∧ keys data !! j = Some sheet2 ∧ i ≠ j
    ∧ item data sheet1 = Some df1 ∧ item data sheet2 = Some df2
    ∧ col1 ∈ columns df1 ∧ col2 ∈ columns df2 ∧ col1 ≠ col2
    ∧ (50 < sim_match_percentage
              (similarity_of h (getitem df1 col1) (getitem df2 col2)))%Q
    ∧ r = candidate astype_str h sheet1 df1 col1 sheet2 df2 col2.
Proof.
  unfold relationship_candidates. rewrite list_elem_of_bind. split.
  - intros ([i sheet1] & Hr & Hi). apply elem_of_enumerate in Hi.
    apply list_elem_of_bind in Hr as ([j sheet2] & Hr & Hj).
    apply elem_of_enumerate in Hj.
    case_bool_decide as Hij; [|by apply elem_of_nil in Hr].
    destruct (item data sheet1) as [df1|] eqn:E1; [|by apply elem_of_nil in Hr].
    destruct (item data sheet2) as [df2|] eqn:E2; [|by apply elem_of_nil in Hr].
    apply list_elem_of_bind in Hr as (col1 & Hr & Hc1).
    apply list_elem_of_bind in Hr as (col2 & Hr & Hc2).
    case_bool_decide as Hcol; [|by apply elem_of_nil in Hr].
    destruct (Qlt_le_dec _ _) as [Hlt|?]; [|by apply elem_of_nil in Hr].
    apply list_elem_of_singleton in Hr.
    by exists i, j, sheet1, sheet2, df1, df2, col1, col2.
  - intros (i & j & sheet1 & sheet2 & df1 & df2 & col1 & col2
            & Hi & Hj & Hij & E1 & E2 & Hc1 & Hc2 & Hcol & Hlt & ->).
    exists (i, sheet1). split; [|by apply elem_of_enumerate].
    apply list_elem_of_bind. exists (j, sheet2).
    split; [|by apply elem_of_enumerate].
    rewrite bool_decide_eq_true_2 by done. rewrite E1, E2.
    apply list_elem_of_bind. exists col1. split; [|done].
    apply list_elem_of_bind. exists col2. split; [|done].
    rewrite bool_decide_eq_true_2 by done.
    destruct (Qlt_le_dec _ _) as [?|Hle]; [by apply list_elem_of_singleton|].
    by apply Qle_not_lt in Hle.
Qed.

Lemma elem_of_analyze_relationships h data r :
  r ∈ analyze_relationships astype_str h data
  ↔ r ∈ relationship_candidates astype_str h data.
Proof. unfold analyze_relationships. by rewrite sort_perm. Qed.

(** In a dictionary, position and key determine each other. *)
Lemma dict_entry data sheet df :
  dict_wf data →
  (sheet, df) ∈ data ↔ (∃ i, keys data !! i = Some sheet) ∧ item data sheet = Some df.
Proof.
  intros Hwf. rewrite item_Some by done. split.
  - intros Hin. split; [|done]. apply list_elem_of_lookup.
    unfold keys. apply list_elem_of_fmap. by exists (sheet, df).
  - by intros [_ ?].
Qed.

Lemma elem_of_candidates_wf h data r :
  dict_wf data →
  r ∈ relationship_candidates astype_str h data ↔
  ∃ sheet1 df1 sheet2 df2 col1 col2,
    (sheet1, df1) ∈ data ∧ (sheet2, df2) ∈ data ∧ sheet1 ≠ sheet2
    ∧ col1 ∈ columns df1 ∧ col2 ∈ columns df2 ∧ col1 ≠ col2
    ∧ (50 < sim_match_percentage
              (similarity_of h (getitem df1 col1) (getitem df2 col2)))%Q
    ∧ r = candidate astype_str h sheet1 df1 col1 sheet2 df2 col2.
Proof.
  intros Hwf. rewrite elem_of_candidates. split.
  - intros (i & j & sheet1 & sheet2 & df1 & df2 & col1 & col2
            & Hi & Hj & Hij & E1 & E2 & Hrest).
    exists sheet1, df1, sheet2, df2, col1, col2.
    split_and!; [apply dict_entry; eauto|apply dict_entry; eauto| |apply Hrest..].
    intros ->. apply Hij. by eapply NoDup_lookup.
  - intros (sheet1 & df1 & sheet2 & df2 & col1 & col2 & H1 & H2 & Hne & Hrest).
    apply dict_entry in H1 as [[i Hi] E1]; [|done].
    apply dict_entry in H2 as [[j Hj] E2]; [|done].
    exists i, j, sheet1, sheet2, df1, df2, col1, col2.
    split_and!; [done|done| |done|done|apply Hrest..].
    intros ->. congruence.
Qed.

(** The percentage of a pair does not depend on the iteration order, and
    the common values are the same up to their order. *)
Lemma similarity_same h1 h2 (col1 col2 : @Series cell) :
  sim_match_percentage (similarity_of h1 col1 col2)
  = sim_match_percentage (similarity_of h2 col1 col2)
  ∧ sim_common_values (similarity_of h1 col1 col2)
    ≡ₚ sim_common_values (similarity_of h2 col1 col2).
Proof.
  unfold calculate_column_similarity. case_bool_decide; [done|]. simpl.
  split; [done|]. by rewrite !set_to_list_perm.
Qed.

Lemma candidates_same h1 h2 data :
  Forall2 same_candidate (relationship_candidates astype_str h1 data)
                         (relationship_candidates astype_str h2 data).
Proof.
  unfold relationship_candidates.
  apply Forall2_bind, Forall_Forall2_diag, Forall_forall. intros [i sheet1] _.
  apply Forall2_bind, Forall_Forall2_diag, Forall_forall. intros [j sheet2] _.
  case_bool_decide; [|constructor].
  destruct (item data sheet1) as [df1|]; [|constructor].
  destruct (item data sheet2) as [df2|]; [|constructor].
  apply Forall2_bind, Forall_Forall2_diag, Forall_forall. intros col1 _.
  apply Forall2_bind, Forall_Forall2_diag, Forall_forall. intros col2 _.
  case_bool_decide; [|constructor].
  destruct (similarity_same h1 h2 (getitem df1 col1) (getitem df2 col2)) as [Hp Hc].
  rewrite Hp. destruct (Qlt_le_dec _ _); [|constructor].
  constructor; [|constructor]. by rewrite <- Hp.
Qed.

End Candidates.

End RelationshipFacts.

(** ** Relationship inference and similarity: the specified behaviour *)

Module InferenceSpec.

Import Py PyFacts Percent PercentFacts ExcelReader SimilarityFacts RelationshipFacts.

Section Spec.

Context {cell : Type} `{EqDecision cell}.
Variable astype_str : cell → string.
Implicit Types (data : dict (@DataFrame cell)).
Implicit Types (h : set_order) (r : relationship).

Abbreviation strs := (distinct_strs astype_str).
Abbreviation pct h col1 col2 :=
  (sim_match_percentage (calculate_column_similarity astype_str h col1 col2)).

(** C1, as the code has it: the inference emits a candidate for two
    columns of two distinct sheets exactly when the columns have
    different names and the directed match percentage exceeds 50. *)
Theorem C1_candidate_iff h data r :
  dict_wf data →
  r ∈ analyze_relationships astype_str h data ↔
  ∃ sheet1 df1 sheet2 df2 col1 col2,
    (sheet1, df1) ∈ data ∧ (sheet2, df2) ∈ data ∧ sheet1 ≠ sheet2
    ∧ col1 ∈ columns df1 ∧ col2 ∈ columns df2 ∧ col1 ≠ col2
    ∧ (50 < pct h (getitem df1 col1) (getitem df2 col2))%Q
    ∧ r = candidate astype_str h sheet1 df1 col1 sheet2 df2 col2.
Proof.
  intros Hwf. rewrite elem_of_analyze_relationships.
  by apply elem_of_candidates_wf.
Qed.

(** C2: when the source column has a present value, the match percentage
    is the number of distinct strings shared with the target, divided by
    the number of distinct strings of the source, times 100; a source of
    5 distinct strings inside a target of 8 gives 100, and 62.5 in the
    reverse direction. *)
Theorem C2_match_percentage h (col1 col2 : @Series cell) :
  dropna col1 ≠ [] →
  (pct h col1 col2
   == of_nat (size (strs col1 ∩ strs col2)) / of_nat (size (strs col1)) * 100)%Q
  ∧ (size (strs col1) = 5 → size (strs col2) = 8 → strs col1 ⊆ strs col2 →
     (pct h col1 col2 == 100)%Q ∧ (pct h col2 col1 == 125 # 2)%Q).
Proof.
  intros H1. split; [by apply match_percentage_quotient|].
  intros Hs1 Hs2 Hsub. split; [by apply match_percentage_subset|].
  assert (dropna col2 ≠ []) as H2.
  { intros Hnil. rewrite (distinct_strs_empty astype_str col2 Hnil), size_empty in Hs2.
    lia. }
  rewrite similarity_late by done. simpl.
  rewrite (comm_L (∩)), (subseteq_intersection_1_L _ _ Hsub), Hs1, Hs2.
  reflexivity.
Qed.

(** C3, as the code has it: two runs on the same sheets yield the same
    candidates in the same order, with the same sheets, columns and
    percentages; the common values of a candidate are the same values,
    listed in the set iteration order of each run. *)
Theorem C3_same_up_to_set_order h1 h2 data :
  Forall2 same_candidate (analyze_relationships astype_str h1 data)
                         (analyze_relationships astype_str h2 data).
Proof. apply sort_same, candidates_same. Qed.

(** C4, as the code has it: the match percentage lies in [0, 100], and
    it is 100 when the source column has a present value and its
    distinct strings are among those of the target. *)
Theorem C4_percentage_range h (col1 col2 : @Series cell) :
  (0 <= pct h col1 col2 <= 100)%Q
  ∧ (dropna col1 ≠ [] → strs col1 ⊆ strs col2 → (pct h col1 col2 == 100)%Q).
Proof.
  split; [apply match_percentage_bounds|apply match_percentage_subset].
Qed.


(** C10: when one of the two columns has no present value, the
    similarity is a match percentage of 0 with no common value, and no
    candidate is returned for the pair. *)
Theorem C10_empty_column h (col1 col2 : @Series cell) :
  dropna col1 = [] ∨ dropna col2 = [] →
  calculate_column_similarity astype_str h col1 col2 = Similarity 0 []
  ∧ ∀ data sheet1 df1 c1 sheet2 df2 c2 r,
      item data sheet1 = Some df1 → item data sheet2 = Some df2 →
      getitem df1 c1 = col1 → getitem df2 c2 = col2 →
      r ∈ analyze_relationships astype_str h data →
      ¬ (from_sheet r = sheet1 ∧ from_column r = c1
         ∧ to_sheet r = sheet2 ∧ to_column r = c2).
Proof.
  intros Hnil. split; [by apply similarity_early|].
  intros data sheet1 df1 c1 sheet2 df2 c2 r E1 E2 <- <- Hr (Hs1 & Hc1 & Hs2 & Hc2).
  apply elem_of_analyze_relationships, elem_of_candidates in Hr
    as (i & j & s1 & s2 & d1 & d2 & k1 & k2 & _ & _ & _ & F1 & F2 & _ & _ & _ & Hlt & ->).
  simpl in *. subst. simplify_eq.
  rewrite similarity_early in Hlt by done. by vm_compute in Hlt.
Qed.

End Spec.

End InferenceSpec.

(** ** Relationship inference on the sample workbooks *)

Module InferenceCases.

Import Py ExcelReader Sample InferenceSpec.

Lemma mirrored_wf : dict_wf mirrored.
Proof. apply (bool_decide_unpack _). by vm_compute. Qed.

Lemma C1_candidate_iff_witness :
  dict_wf mirrored
  ∧ (candidate str_int order_a "A" sheet_a "a" "B" sheet_b "b"
       ∈ analyze_relationships str_int order_a mirrored
     ↔ ∃ sheet1 df1 sheet2 df2 col1 col2,
         (sheet1, df1) ∈ mirrored ∧ (sheet2, df2) ∈ mirrored ∧ sheet1 ≠ sheet2
         ∧ col1 ∈ columns df1 ∧ col2 ∈ columns df2 ∧ col1 ≠ col2
         ∧ (50 < sim_match_percentage
                   (calculate_column_similarity str_int order_a
                      (getitem df1 col1) (getitem df2 col2)))%Q
         ∧ candidate str_int order_a "A" sheet_a "a" "B" sheet_b "b"
           = candidate str_int order_a sheet1 df1 col1 sheet2 df2 col2).
Proof.
  split; [exact mirrored_wf|].
  exact (C1_candidate_iff str_int order_a mirrored _ mirrored_wf).
Defined.

(** C1 as stated fails on two sheets that share a column name: the pair
    (A.id, B.id) is a pair of columns of two distinct sheets whose directed
    match percentage is 100, and nothing is emitted for it. *)
Lemma C1_same_name_counterexample :
  ("A"%string, sheet_id) ∈ same_named ∧ ("B"%string, sheet_id) ∈ same_named
  ∧ "A"%string ≠ "B"%string
  ∧ "id"%string ∈ columns sheet_id
  ∧ (50 < sim_match_percentage
            (calculate_column_similarity str_int order_a
               (getitem sheet_id "id") (getitem sheet_id "id")))%Q
  ∧ candidate str_int order_a "A" sheet_id "id" "B" sheet_id "id"
      ∉ analyze_relationships str_int order_a same_named.
Proof.
  split_and!.
  - left.
  - right. left.
  - done.
  - left.
  - by vm_compute.
  - replace (analyze_relationships str_int order_a same_named)
      with (@nil relationship) by by vm_compute.
    apply not_elem_of_nil.
Qed.

Lemma X_present : dropna X ≠ [].
Proof. done. Qed.

Lemma X_in_Y : distinct_strs str_int X ⊆ distinct_strs str_int Y.
Proof. apply (bool_decide_unpack _). by vm_compute. Qed.

Lemma C2_match_percentage_witness :
  dropna X ≠ []
  ∧ size (distinct_strs str_int X) = 5 ∧ size (distinct_strs str_int Y) = 8
  ∧ distinct_strs str_int X ⊆ distinct_strs str_int Y
  ∧ (sim_match_percentage (calculate_column_similarity str_int order_a X Y) == 100)%Q
  ∧ (sim_match_percentage (calculate_column_similarity str_int order_a Y X) == 125 # 2)%Q.
Proof.
  assert (H5 : size (distinct_strs str_int X) = 5) by by vm_compute.
  assert (H8 : size (distinct_strs str_int Y) = 8) by by vm_compute.
  split_and!; [exact X_present|exact H5|exact H8|exact X_in_Y|..];
    apply (C2_match_percentage str_int order_a X Y X_present); assumption || exact X_in_Y.
Defined.

(** C3 as stated fails: on one and the same pair of sheets, two iteration
    orders of the set of common values give two different lists of
    candidates. *)
Lemma C3_set_order_counterexample :
  common_values <$> analyze_relationships str_int order_a mirrored
    = [["1"; "2"]; ["1"; "2"]]%string
  ∧ common_values <$> analyze_relationships str_int order_b mirrored
    = [["2"; "1"]; ["2"; "1"]]%string
  ∧ analyze_relationships str_int order_a mirrored
    ≠ analyze_relationships str_int order_b mirrored.
Proof.
  assert (Ha : common_values <$> analyze_relationships str_int order_a mirrored
               = [["1"; "2"]; ["1"; "2"]]%string) by by vm_compute.
  assert (Hb : common_values <$> analyze_relationships str_int order_b mirrored
               = [["2"; "1"]; ["2"; "1"]]%string) by by vm_compute.
  split_and!; [done|done|]. intros Heq. rewrite Heq, Hb in Ha. discriminate Ha.
Qed.

Lemma C4_percentage_range_witness :
  dropna X ≠ [] ∧ distinct_strs str_int X ⊆ distinct_strs str_int Y
  ∧ (0 <= sim_match_percentage (calculate_column_similarity str_int order_a X Y) <= 100)%Q
  ∧ (sim_match_percentage (calculate_column_similarity str_int order_a X Y) == 100)%Q.
Proof.
  destruct (C4_percentage_range str_int order_a X Y) as [Hrange Hfull].
  exact (conj X_present (conj X_in_Y (conj Hrange (Hfull X_present X_in_Y)))).
Defined.

(** C4 as stated fails for a source column without a present value: its
    set of strings is empty, hence inside the target's, and the percentage
    is 0. *)
Lemma C4_blank_source_counterexample :
  distinct_strs str_int blank ⊆ distinct_strs str_int X
  ∧ ¬ (sim_match_percentage (calculate_column_similarity str_int order_a blank X)
       == 100)%Q.
Proof.
  split; [apply (bool_decide_unpack _); by vm_compute|].
  intros Heq. by vm_compute in Heq.
Qed.



Lemma C10_empty_column_witness :
  (dropna blank = [] ∨ dropna X = [])
  ∧ calculate_column_similarity str_int order_a blank X = Similarity 0 [].
Proof.
  assert (Hnil : dropna blank = [] ∨ dropna X = []) by (left; reflexivity).
  split; [exact Hnil|].
  exact (proj1 (C10_empty_column str_int order_a blank X Hnil)).
Defined.

End InferenceCases.

(** ** SQL type inference *)

Module TypeInferenceSpec.

Import Py SqlGenerator.

Section Spec.

Context {cell : Type}.
Variable str : cell → string.

Abbreviation sql_type := (map_pandas_to_sql_type str).



Lemma name_rule_type dtype column_name s u r :
  name_rule_applies column_name = true →
  sql_type dtype column_name s u r ∈ name_rule_types.
Proof.
  unfold name_rule_applies, map_pandas_to_sql_type, name_rule_types.
  destruct (contains "Code" column_name); simpl.
  { destruct (contains "int" dtype); set_solver. }
  destruct (endswith "_id" column_name); simpl.
  { destruct (contains "int" dtype); set_solver. }
  destruct (contains "Date" column_name); simpl.
  { destruct (contains "datetime64" dtype); set_solver. }
  destruct (contains "date" (lower column_name)); simpl.
  { destruct (contains "datetime64" dtype); set_solver. }
  destruct (contains "Time" column_name); simpl; [set_solver|].
  destruct (contains "time" (lower column_name)); simpl; [set_solver|].
  destruct (contains "Hours" column_name); simpl; [set_solver|].
  destruct (contains "Duration" column_name); simpl; [set_solver|].
  destruct (contains "Value" column_name); simpl; [set_solver|].
  destruct (contains "Revenue" column_name); simpl; [set_solver|].
  destruct (contains "Price" column_name); simpl; [set_solver|done].
Qed.


End Spec.


End TypeInferenceSpec.

(** ** Errors at the top level of the three scripts *)

Module ErrorSpec.

Import Effects Py ExcelReader.


Lemma bind_raise {A B} (m : io A) (k : A → io B) e :
  outcome m = Raise e → bind m k = IO (console m) (Raise e).
Proof. intros Hm. unfold bind. by rewrite Hm. Qed.

Section Spec.

Context {cell : Type} `{EqDecision cell}.
Variable astype_str : cell → string.
Variable ExcelFile : string → result (list string).
Variable read_excel : string → string → result (@DataFrame cell).
Variable to_csv : @DataFrame cell → string → result unit.
Variable json_dump : @analysis_data cell → string → result unit.
Variable repr_names : list string → string.
Variable repr_cells : list cell → string.
Variable head_to_string : @DataFrame cell → string.
Variable format_1f : Q → string.
Variable h : set_order.

Context {json frame : Type}.
Variable json_load : string → result json.
Variable read_csv : string → result frame.
Variable write_text : string → string → result unit.
Variable timestamp : string.
Variable generate_table_creation_sql : dict frame → json → result string.
Variable generate_data_insertion_sql : dict frame → result string.
Variable generate_foreign_key_constraints : result string.
Variable generate_sample_queries : result string.
Variable report_text : json → dict frame → result string.

Abbreviation extractor_body :=
  (analyze_excel_file_body astype_str ExcelFile read_excel to_csv json_dump
     repr_names repr_cells head_to_string format_1f h).
Abbreviation extractor :=
  (analyze_excel_file astype_str ExcelFile read_excel to_csv json_dump
     repr_names repr_cells head_to_string format_1f h).
Abbreviation sql_generator :=
  (SqlGenerator.generate_sql_schema_and_data json_load read_csv write_text timestamp
     generate_table_creation_sql generate_data_insertion_sql
     generate_foreign_key_constraints generate_sample_queries).
Abbreviation sql_main :=
  (SqlGenerator.main json_load read_csv write_text timestamp
     generate_table_creation_sql generate_data_insertion_sql
     generate_foreign_key_constraints generate_sample_queries).
Abbreviation report_generator :=
  (Report.generate_comprehensive_report json_load read_csv write_text report_text).
Abbreviation report_main :=
  (Report.main json_load read_csv write_text report_text).


(** An exception raised anywhere in the [try] block is logged after what
    was printed so far, and three [None] are returned. *)
Lemma extractor_catches file_path e :
  outcome (extractor_body file_path) = Raise e →
  extractor file_path
  = IO (console (extractor_body file_path) ++ ["Error reading Excel file: " +:+ e])
       (Return (None, None, None)).
Proof. intros He. unfold analyze_excel_file, try_except. by rewrite He. Qed.





End Spec.

End ErrorSpec.

(** ** The three scripts without their input files *)

Module ErrorCases.

Import Effects Py ExcelReader Sample ErrorSpec.

(** A sheet that cannot be read: the lines of the first sheet are on the
    console, then the error, and three [None] are returned. *)
Example unreadable_sheet_is_caught :
  outcome (extract two_sheets unreadable_B "book.xlsx") = Return (None, None, None)
  ∧ last (console (extract two_sheets unreadable_B "book.xlsx"))
    = Some "Error reading Excel file: Worksheet named 'B' not found"%string.
Proof. by vm_compute. Qed.



End ErrorCases.

(** ** The column profile: counts and samples *)

Module ProfileExtras.

Import Py PyFacts ExcelReader ProfilerFacts.

Section Facts.

Context {cell : Type} `{EqDecision cell}.
Implicit Types (df : @DataFrame cell) (s : @Series cell).

Lemma count_isnull_sum s : count s + isnull_sum s = length (series_values s).
Proof.
  unfold count, isnull_sum, dropna.
  induction (series_values s) as [|[c|] vs IH]; [done| |].
  - rewrite filter_cons_False by done. csimpl. lia.
  - rewrite filter_cons_True by done. csimpl. lia.
Qed.

Lemma remove_dups_length (l : list cell) : length (remove_dups l) ≤ length l.
Proof.
  induction l as [|x l IH]; simpl; [done|].
  destruct (decide_rel (∈) x l); simpl; lia.
Qed.

Lemma remove_dups_length_NoDup (l : list cell) :
  length (remove_dups l) = length l ↔ NoDup l.
Proof.
  split.
  - induction l as [|x l IH]; simpl; [constructor|].
    destruct (decide_rel (∈) x l) as [Hin|Hnin]; simpl; intros Hlen.
    + pose proof (remove_dups_length l). lia.
    + constructor; [done|]. apply IH. lia.
  - intros Hnd. induction Hnd as [|x l Hx _ IH]; simpl; [done|].
    destruct (decide_rel (∈) x l); [done|]. simpl. by rewrite IH.
Qed.

Lemma isnull_sum_zero s :
  isnull_sum s = 0 ↔ series_values s = Some <$> dropna s.
Proof.
  unfold isnull_sum, dropna.
  induction (series_values s) as [|[c|] vs IH]; [done| |].
  - rewrite filter_cons_False by done. csimpl. rewrite IH. split; [by intros <-|].
    by intros [= ?].
  - rewrite filter_cons_True by done. csimpl. split; [intros; lia|].
    intros Heq. destruct (omap id vs); discriminate Heq.
Qed.

(** X1: in the profile of a column, the non-null and null counts add up to
    the number of entries, the distinct count does not exceed the non-null
    count, the sample values are the first present values of the column, at
    most five of them, and the non-null count is 0 exactly when every entry is
    missing. *)
Theorem X1_profile_counts df col :
  col ∈ columns df →
  ∃ info, item (column_info df) col = Some info
    ∧ non_null_count info + null_count info = length (series_values (getitem df col))
    ∧ unique_count info ≤ non_null_count info
    ∧ sample_values info = take 5 (dropna (getitem df col))
    ∧ length (sample_values info) = 5 `min` non_null_count info
    ∧ (non_null_count info = 0 ↔ all_missing (getitem df col)).
Proof.
  intros Hcol. exists (analyze_column df col).
  destruct (analyze_column_counts df col) as (Hn & Hu & Hc).
  assert (sample_values (analyze_column df col) = take 5 (dropna (getitem df col)))
    as Hsample.
  { unfold analyze_column. case_bool_decide; simpl.
    all: unfold series_empty; case_bool_decide as Hempty; simpl; try done.
    all: apply length_zero_iff_nil in Hempty; unfold dropna; by rewrite Hempty. }
  split_and!.
  - by apply item_column_info.
  - rewrite Hn, Hc. apply count_isnull_sum.
  - rewrite Hu, Hc. apply remove_dups_length.
  - done.
  - rewrite Hsample, Hc, length_take. done.
  - rewrite Hc. unfold count. rewrite length_zero_iff_nil. split.
    + intros Hnil. unfold all_missing, dropna in *.
      induction (series_values (getitem df col)) as [|[c|] vs IH];
        [constructor|done|]. constructor; [done|]. by apply IH.
    + apply all_missing_dropna.
Qed.

(** X2: in a frame whose columns have one entry per row, a column is flagged
    as a potential primary key exactly when none of its entries is missing
    and no value occurs twice. *)
Theorem X2_key_flag_meaning df col :
  DataFrame_wf df → col ∈ columns df →
  ∃ info, item (column_info df) col = Some info
    ∧ (potential_primary_key info = true
       ↔ Forall is_Some (series_values (getitem df col))
         ∧ NoDup (series_values (getitem df col))).
Proof.
  intros Hwf Hcol. exists (analyze_column df col).
  split; [by apply item_column_info|].
  rewrite analyze_column_flag. specialize (Hwf col Hcol).
  pose proof (count_isnull_sum (getitem df col)) as Hsum.
  unfold nunique. unfold count in Hsum. split.
  - intros [Hu Hz]. apply isnull_sum_zero in Hz as Hvals.
    assert (NoDup (dropna (getitem df col))) as Hnd.
    { apply remove_dups_length_NoDup. lia. }
    rewrite Hvals. split.
    + apply Forall_fmap, Forall_true. by eexists.
    + apply NoDup_fmap; [apply _|done].
  - intros [Hall Hnd].
    assert (isnull_sum (getitem df col) = 0) as Hz.
    { unfold isnull_sum. apply length_zero_iff_nil.
      clear -Hall. induction Hall as [|v vs [c ->] _ IH]; [done|].
      by rewrite filter_cons_False by done. }
    split; [|done]. apply isnull_sum_zero in Hz as Hvals.
    rewrite Hvals in Hnd. apply NoDup_fmap in Hnd; [|apply _].
    apply remove_dups_length_NoDup in Hnd. lia.
Qed.

(** X3: when the column names of a frame are distinct, the profile lists the
    columns in the order of the sheet, each once. *)
Theorem X3_profile_columns df :
  NoDup (columns df) →
  keys (column_info df) = columns df ∧ dict_wf (column_info df).
Proof.
  intros Hnd.
  assert (keys (column_info df) = columns df) as Hkeys.
  { unfold column_info.
    assert (∀ cols acc,
      NoDup (keys acc ++ cols) →
      keys (foldl (λ acc col, setitem acc col (analyze_column df col)) acc cols)
      = keys acc ++ cols) as Hgen.
    { induction cols as [|c cs IH]; intros acc Hacc; simpl.
      - by rewrite app_nil_r.
      - rewrite IH.
        + rewrite keys_setitem. rewrite bool_decide_eq_false_2.
          * by rewrite <- app_assoc.
          * apply NoDup_app in Hacc as (_ & Hdisj & _). intros Hin.
            apply (Hdisj c Hin). left.
        + rewrite keys_setitem. rewrite bool_decide_eq_false_2.
          * by rewrite <- app_assoc.
          * apply NoDup_app in Hacc as (_ & Hdisj & _). intros Hin.
            apply (Hdisj c Hin). left. }
    by apply (Hgen (columns df) []). }
  split; [done|]. unfold dict_wf. by rewrite Hkeys.
Qed.

End Facts.

Import Sample.

Lemma X1_profile_counts_witness :
  "m"%string ∈ columns three_rows
  ∧ ∃ info, item (column_info three_rows) "m" = Some info
    ∧ non_null_count info + null_count info
      = length (series_values (getitem three_rows "m"))
    ∧ unique_count info ≤ non_null_count info
    ∧ sample_values info = take 5 (dropna (getitem three_rows "m"))
    ∧ length (sample_values info) = 5 `min` non_null_count info
    ∧ (non_null_count info = 0 ↔ all_missing (getitem three_rows "m")).
Proof.
  assert (Hin : "m"%string ∈ columns three_rows) by (cbn; do 2 right; left).
  split; [exact Hin|]. exact (X1_profile_counts three_rows "m" Hin).
Defined.

Lemma X2_key_flag_meaning_witness :
  DataFrame_wf three_rows ∧ "r"%string ∈ columns three_rows
  ∧ ∃ info, item (column_info three_rows) "r" = Some info
    ∧ (potential_primary_key info = true
       ↔ Forall is_Some (series_values (getitem three_rows "r"))
         ∧ NoDup (series_values (getitem three_rows "r"))).
Proof.
  assert (Hin : "r"%string ∈ columns three_rows) by (cbn; right; left).
  split; [exact three_rows_wf|]. split; [exact Hin|].
  exact (X2_key_flag_meaning three_rows "r" three_rows_wf Hin).
Defined.

Lemma X3_profile_columns_witness :
  NoDup (columns three_rows)
  ∧ keys (column_info three_rows) = columns three_rows
  ∧ dict_wf (column_info three_rows).
Proof.
  assert (Hnd : NoDup (columns three_rows))
    by (apply (bool_decide_unpack _); vm_compute; exact I).
  split; [exact Hnd|]. exact (X3_profile_columns three_rows Hnd).
Defined.

End ProfileExtras.

(** ** The similarity of two columns: further properties *)

Module SimilarityExtras.

Import Py Percent PercentFacts ExcelReader SimilarityFacts.

Lemma ratio100_eq_100 k n : n ≠ 0 → (ratio100 k n == 100)%Q ↔ k = n.
Proof.
  intros Hn. unfold ratio100, of_nat, Qeq, Qdiv, Qmult, Qinv. simpl.
  destruct (Z.of_nat n) as [|p|p] eqn:E; [lia| |lia]. simpl. split; nia.
Qed.

Lemma ratio100_eq_0 k n : n ≠ 0 → (ratio100 k n == 0)%Q ↔ k = 0.
Proof.
  intros Hn. unfold ratio100, of_nat, Qeq, Qdiv, Qmult, Qinv. simpl.
  destruct (Z.of_nat n) as [|p|p] eqn:E; [lia| |lia]. simpl. split; nia.
Qed.

Lemma ratio100_mono k k' n : n ≠ 0 → k ≤ k' → (ratio100 k n <= ratio100 k' n)%Q.
Proof.
  intros Hn Hk. unfold ratio100, of_nat, Qle, Qdiv, Qmult, Qinv. simpl.
  destruct (Z.of_nat n) as [|p|p] eqn:E; [lia| |lia]. simpl. nia.
Qed.

Lemma ratio100_antitone k n m :
  n ≠ 0 → n ≤ m → (ratio100 k m <= ratio100 k n)%Q.
Proof.
  intros Hn Hm. unfold ratio100, of_nat, Qle, Qdiv, Qmult, Qinv. simpl.
  destruct (Z.of_nat n) as [|p|p] eqn:E; [lia| |lia].
  destruct (Z.of_nat m) as [|q|q] eqn:E'; [lia| |lia]. simpl. nia.
Qed.

Section Facts.

Context {cell : Type} `{EqDecision cell}.
Variable astype_str : cell → string.
Implicit Types (h : set_order).

Abbreviation strs := (distinct_strs astype_str).
Abbreviation similarity_of := (calculate_column_similarity astype_str).
Abbreviation pct h col1 col2 := (sim_match_percentage (similarity_of h col1 col2)).

Lemma distinct_strs_nil_iff (col : @Series cell) : strs col = ∅ ↔ dropna col = [].
Proof.
  split; [|apply distinct_strs_empty].
  intros Hempty. destruct (decide (dropna col = [])) as [|Hne]; [done|].
  apply (distinct_strs_size astype_str) in Hne. rewrite Hempty, size_empty in Hne. done.
Qed.

(** X4: the match percentage is 0 exactly when the two columns share no
    string, and for a source column with a present value it is 100 exactly
    when every string of the source is a string of the target. *)
Theorem X4_percentage_extremes h (col1 col2 : @Series cell) :
  ((pct h col1 col2 == 0)%Q ↔ strs col1 ∩ strs col2 = ∅)
  ∧ (dropna col1 ≠ [] → (pct h col1 col2 == 100)%Q ↔ strs col1 ⊆ strs col2).
Proof.
  split.
  - destruct (decide (dropna col1 = [] ∨ dropna col2 = [])) as [Hnil|Hnn].
    + rewrite similarity_early by done. simpl. split; [intros _|done].
      destruct Hnil as [Hnil|Hnil]; rewrite (distinct_strs_empty _ _ Hnil).
      * apply (left_absorb_L ∅ (∩)).
      * apply (right_absorb_L ∅ (∩)).
    + rewrite similarity_late by (intros ?; apply Hnn; auto). simpl.
      rewrite ratio100_eq_0 by (apply distinct_strs_size; intros ?; apply Hnn; auto).
      rewrite size_empty_iff. by unfold_leibniz.
  - intros H1. split; [|by apply match_percentage_subset].
    destruct (decide (dropna col2 = [])) as [H2|H2].
    + rewrite similarity_early by by right. simpl. intros Heq. by vm_compute in Heq.
    + rewrite similarity_late by done. simpl.
      rewrite ratio100_eq_100 by by apply distinct_strs_size.
      intros Hsize.
      assert (strs col1 ∩ strs col2 = strs col1) as Heq.
      { apply set_subseteq_size_eq; [apply intersection_subseteq_l|lia]. }
      rewrite <- Heq. apply intersection_subseteq_r.
Qed.

(** X5: the two directions of a pair of columns list the same common
    values, up to their order; one percentage is 0 exactly when the other
    is; and the direction that starts from the column with no more distinct
    strings than the other has the percentage that is not the lower one.
    These are comparisons, which the rounding of the quotient keeps. *)
Theorem X5_two_directions h (col1 col2 : @Series cell) :
  sim_common_values (similarity_of h col1 col2)
    ≡ₚ sim_common_values (similarity_of h col2 col1)
  ∧ ((pct h col1 col2 == 0)%Q ↔ (pct h col2 col1 == 0)%Q)
  ∧ (size (strs col1) ≤ size (strs col2) → (pct h col2 col1 <= pct h col1 col2)%Q).
Proof.
  destruct (decide (dropna col1 = [] ∨ dropna col2 = [])) as [Hnil|Hnn].
  - rewrite !similarity_early by tauto. simpl. split_and!; [done|done|].
    intros _. apply Qle_refl.
  - assert (dropna col1 ≠ []) as H1 by (intros ?; apply Hnn; auto).
    assert (dropna col2 ≠ []) as H2 by (intros ?; apply Hnn; auto).
    rewrite !similarity_late by done. simpl.
    rewrite (comm_L (∩) (strs col2) (strs col1)). split_and!; [done| |].
    + by rewrite !ratio100_eq_0 by by apply distinct_strs_size.
    + intros Hsize. apply ratio100_antitone; [by apply distinct_strs_size|done].
Qed.

(** X6: a target column with more strings never gets a lower percentage:
    the match percentage is monotone in the set of strings of the target. *)
Theorem X6_monotone_in_target h (col1 col2 col2' : @Series cell) :
  strs col2 ⊆ strs col2' → (pct h col1 col2 <= pct h col1 col2')%Q.
Proof.
  intros Hsub.
  destruct (decide (dropna col1 = [] ∨ dropna col2 = [])) as [Hnil|Hnn].
  - rewrite (similarity_early _ h col1 col2) by done. simpl.
    apply match_percentage_bounds.
  - assert (dropna col1 ≠ []) as H1 by (intros ?; apply Hnn; auto).
    assert (dropna col2 ≠ []) as H2 by (intros ?; apply Hnn; auto).
    assert (dropna col2' ≠ []) as H2'.
    { intros Hnil. apply distinct_strs_nil_iff in Hnil. rewrite Hnil in Hsub.
      apply equiv_empty_L in Hsub. by apply distinct_strs_nil_iff in Hsub. }
    rewrite !similarity_late by done. simpl.
    apply ratio100_mono; [by apply distinct_strs_size|].
    apply subseteq_size. by apply intersection_mono_l.
Qed.

End Facts.

Import Sample.

Lemma X4_percentage_extremes_witness :
  dropna X ≠ []
  ∧ ((sim_match_percentage (calculate_column_similarity str_int order_a X Y) == 100)%Q
     ↔ distinct_strs str_int X ⊆ distinct_strs str_int Y).
Proof.
  assert (HX : dropna X ≠ []) by discriminate.
  split; [exact HX|].
  exact (proj2 (X4_percentage_extremes str_int order_a X Y) HX).
Defined.

Lemma X5_two_directions_witness :
  size (distinct_strs str_int X) ≤ size (distinct_strs str_int Y)
  ∧ (sim_match_percentage (calculate_column_similarity str_int order_a Y X)
     <= sim_match_percentage (calculate_column_similarity str_int order_a X Y))%Q.
Proof.
  assert (Hsize : size (distinct_strs str_int X) ≤ size (distinct_strs str_int Y))
    by (vm_compute; lia).
  split; [exact Hsize|].
  exact (proj2 (proj2 (X5_two_directions str_int order_a X Y)) Hsize).
Defined.

Lemma X6_monotone_in_target_witness :
  distinct_strs str_int X ⊆ distinct_strs str_int Y
  ∧ (sim_match_percentage (calculate_column_similarity str_int order_a Y X)
     <= sim_match_percentage (calculate_column_similarity str_int order_a Y Y))%Q.
Proof.
  assert (Hsub : distinct_strs str_int X ⊆ distinct_strs str_int Y)
    by (apply (bool_decide_unpack _); vm_compute; exact I).
  split; [exact Hsub|].
  exact (X6_monotone_in_target str_int order_a Y X Y Hsub).
Defined.

End SimilarityExtras.

(** ** Relationship inference: what a returned candidate holds *)

Module RelationshipExtras.

Import Py PyFacts Percent PercentFacts ExcelReader SimilarityFacts RelationshipFacts.

Section Facts.

Context {cell : Type} `{EqDecision cell}.
Variable astype_str : cell → string.
Implicit Types (data : dict (@DataFrame cell)) (h : set_order) (r : relationship).

Abbreviation strs := (distinct_strs astype_str).

(** A percentage above 50 is not the early return. *)
Lemma above_threshold_present h (col1 col2 : @Series cell) :
  (50 < sim_match_percentage (calculate_column_similarity astype_str h col1 col2))%Q →
  dropna col1 ≠ [] ∧ dropna col2 ≠ [].
Proof.
  intros Hlt.
  destruct (decide (dropna col1 = [] ∨ dropna col2 = [])) as [Hnil|Hnn].
  - rewrite similarity_early in Hlt by done. by vm_compute in Hlt.
  - split; intros ?; apply Hnn; auto.
Qed.

(** X7: every returned candidate relates two differently named columns of
    two different sheets of the workbook; its common values are exactly the
    strings the two columns share, each listed once; they are more than half
    of the distinct strings of the source column, and the percentage is their
    share of these. *)
Theorem X7_candidate_content h data r :
  dict_wf data → r ∈ analyze_relationships astype_str h data →
  ∃ df1 df2,
    (from_sheet r, df1) ∈ data ∧ (to_sheet r, df2) ∈ data
    ∧ from_sheet r ≠ to_sheet r
    ∧ from_column r ∈ columns df1 ∧ to_column r ∈ columns df2
    ∧ from_column r ≠ to_column r
    ∧ NoDup (common_values r)
    ∧ (∀ v, v ∈ common_values r
            ↔ v ∈ strs (getitem df1 (from_column r))
              ∧ v ∈ strs (getitem df2 (to_column r)))
    ∧ size (strs (getitem df1 (from_column r))) < 2 * length (common_values r)
    ∧ (match_percentage r
       == ratio100 (length (common_values r))
                   (size (strs (getitem df1 (from_column r)))))%Q.
Proof.
  intros Hwf Hr.
  apply elem_of_analyze_relationships, elem_of_candidates_wf in Hr
    as (sheet1 & df1 & sheet2 & df2 & col1 & col2
        & H1 & H2 & Hs & Hc1 & Hc2 & Hc & Hlt & ->); [|done].
  exists df1, df2. unfold candidate. simpl.
  destruct (above_threshold_present _ _ _ Hlt) as [Hp1 Hp2].
  rewrite similarity_late in Hlt |- * by done. simpl in *.
  pose proof (set_to_list_perm h
    (strs (getitem df1 col1) ∩ strs (getitem df2 col2))) as Hperm.
  assert (length (set_to_list h (strs (getitem df1 col1) ∩ strs (getitem df2 col2)))
          = size (strs (getitem df1 col1) ∩ strs (getitem df2 col2))) as Hlen.
  { by rewrite Hperm. }
  split_and!; try done.
  - rewrite Hperm. apply NoDup_elements.
  - intros v. rewrite Hperm, elem_of_elements. apply elem_of_intersection.
  - rewrite Hlen. by apply ratio100_gt_50; [apply distinct_strs_size|].
  - by rewrite Hlen.
Qed.

(** X8: a workbook with fewer than two sheets has no relationship
    candidate. *)
Theorem X8_fewer_than_two_sheets h data :
  length data < 2 → analyze_relationships astype_str h data = [].
Proof.
  intros Hlen. destruct data as [|[sheet df] [|? ?]]; simpl in Hlen; [done| |lia].
  reflexivity.
Qed.

End Facts.

Import Sample InferenceCases.

Lemma X7_candidate_content_witness :
  dict_wf mirrored
  ∧ candidate str_int order_a "A" sheet_a "a" "B" sheet_b "b"
      ∈ analyze_relationships str_int order_a mirrored
  ∧ ∃ df1 df2,
      ("A"%string, df1) ∈ mirrored ∧ ("B"%string, df2) ∈ mirrored
      ∧ "A"%string ≠ "B"%string
      ∧ "a"%string ∈ columns df1 ∧ "b"%string ∈ columns df2
      ∧ "a"%string ≠ "b"%string
      ∧ NoDup (common_values (candidate str_int order_a "A" sheet_a "a" "B" sheet_b "b"))
      ∧ (∀ v, v ∈ common_values (candidate str_int order_a "A" sheet_a "a" "B" sheet_b "b")
              ↔ v ∈ distinct_strs str_int (getitem df1 "a")
                ∧ v ∈ distinct_strs str_int (getitem df2 "b"))
      ∧ size (distinct_strs str_int (getitem df1 "a"))
        < 2 * length (common_values (candidate str_int order_a "A" sheet_a "a" "B" sheet_b "b"))
      ∧ (match_percentage (candidate str_int order_a "A" sheet_a "a" "B" sheet_b "b")
         == ratio100
              (length (common_values (candidate str_int order_a "A" sheet_a "a" "B" sheet_b "b")))
              (size (distinct_strs str_int (getitem df1 "a"))))%Q.
Proof.
  assert (Hin : candidate str_int order_a "A" sheet_a "a" "B" sheet_b "b"
                  ∈ analyze_relationships str_int order_a mirrored)
    by (vm_compute; left).
  split; [exact mirrored_wf|]. split; [exact Hin|].
  exact (X7_candidate_content str_int order_a mirrored _ mirrored_wf Hin).
Defined.

Lemma X8_fewer_than_two_sheets_witness :
  length [("A"%string, sheet_a)] < 2
  ∧ analyze_relationships str_int order_a [("A"%string, sheet_a)] = [].
Proof.
  assert (Hlen : length [("A"%string, sheet_a)] < 2) by (simpl; lia).
  split; [exact Hlen|].
  exact (X8_fewer_than_two_sheets str_int order_a [("A"%string, sheet_a)] Hlen).
Defined.

End RelationshipExtras.

(** ** The run of the extractor *)

Module RunExtras.

Import Effects Py PyFacts ExcelReader ErrorSpec.

Lemma outcome_bind {A B} (m : io A) (k : A → io B) :
  outcome (bind m k)
  = match outcome m with Return a => outcome (k a) | Raise e => Raise e end.
Proof. unfold bind. by destruct (outcome m). Qed.

(** One step of a run: the outcome of a sequence is decided by its first
    command. *)
Ltac run_steps :=
  repeat first [ rewrite outcome_bind
               | progress cbn [outcome print call ret fst snd app] ].

Lemma for_each_returns {X} (l : list X) (body : X → io unit) :
  (∀ x, x ∈ l → outcome (body x) = Return tt) →
  outcome (for_each l body) = Return tt.
Proof.
  induction l as [|x l IH]; intros Hbody; simpl; [done|].
  rewrite outcome_bind, (Hbody x) by left. apply IH. intros y Hy. apply Hbody. by right.
Qed.

Lemma setitem_fresh {V} (d : dict V) k v : k ∉ keys d → setitem d k v = d ++ [(k, v)].
Proof.
  induction d as [|[k' v'] d IH]; intros Hk; [done|].
  rewrite keys_cons in Hk. apply not_elem_of_cons in Hk as [Hne Hk].
  cbn [setitem]. rewrite decide_False by done. by rewrite IH.
Qed.

(** The characters of the two replacements do not survive in a file name. *)
Lemma replace_char_absent a b s :
  a ≠ b → contains (String a EmptyString) (replace_char a b s) = false.
Proof.
  intros Hab. induction s as [|c s IH]; simpl; [done|].
  rewrite IH, orb_false_r, andb_true_r.
  destruct (decide (c = a)); apply bool_decide_eq_false_2; congruence.
Qed.

Lemma replace_char_keeps_absent c a b s :
  c ≠ b → contains (String c EmptyString) s = false →
  contains (String c EmptyString) (replace_char a b s) = false.
Proof.
  intros Hcb. induction s as [|x s IH]; simpl; [done|].
  rewrite !andb_true_r. intros [Hx Hs]%orb_false_elim.
  rewrite (IH Hs), orb_false_r. apply bool_decide_eq_false in Hx.
  destruct (decide (x = a)); apply bool_decide_eq_false_2; congruence.
Qed.

Lemma replace_char_length a b s : String.length (replace_char a b s) = String.length s.
Proof. induction s as [|c s IH]; simpl; [done|]. by rewrite IH. Qed.

Lemma replace_char_app a b s1 s2 :
  replace_char a b (s1 +:+ s2) = replace_char a b s1 +:+ replace_char a b s2.
Proof. induction s1 as [|c s1 IH]; simpl; [done|]. by rewrite IH. Qed.

(** X9: the flat file of a sheet is named after the sheet with every space
    and every slash turned into an underscore, so that the name has neither;
    as a consequence the sheets [a b], [a_b] and [a/b] are exported to the
    same file. *)
Theorem X9_csv_filename sheet_name :
  (∃ stem, csv_filename sheet_name
           = "/Users/mtz/Projects/GEP/backend/" +:+ stem +:+ "_data.csv"
     ∧ String.length stem = String.length sheet_name
     ∧ contains " " stem = false ∧ contains "/" stem = false)
  ∧ (∀ s1 s2, csv_filename (s1 +:+ " " +:+ s2) = csv_filename (s1 +:+ "_" +:+ s2)
              ∧ csv_filename (s1 +:+ "/" +:+ s2) = csv_filename (s1 +:+ "_" +:+ s2)).
Proof.
  split.
  - eexists. split; [reflexivity|]. split_and!.
    + by rewrite !replace_char_length.
    + apply replace_char_keeps_absent; [done|]. by apply replace_char_absent.
    + by apply replace_char_absent.
  - intros s1 s2. unfold csv_filename. by rewrite !replace_char_app.
Qed.

Section Run.

Context {cell : Type} `{EqDecision cell}.
Variable astype_str : cell → string.
Variable ExcelFile : string → result (list string).
Variable read_excel : string → string → result (@DataFrame cell).
Variable to_csv : @DataFrame cell → string → result unit.
Variable json_dump : @analysis_data cell → string → result unit.
Variable repr_names : list string → string.
Variable repr_cells : list cell → string.
Variable head_to_string : @DataFrame cell → string.
Variable format_1f : Q → string.
Variable h : set_order.

Abbreviation sheet_step :=
  (analyze_sheet read_excel repr_names repr_cells head_to_string).
Abbreviation extractor_body :=
  (analyze_excel_file_body astype_str ExcelFile read_excel to_csv json_dump
     repr_names repr_cells head_to_string format_1f h).
Abbreviation extractor :=
  (analyze_excel_file astype_str ExcelFile read_excel to_csv json_dump
     repr_names repr_cells head_to_string format_1f h).
Abbreviation script :=
  (main astype_str ExcelFile read_excel to_csv json_dump
     repr_names repr_cells head_to_string format_1f h).

(** The frames and the structures after the sheets were read one by one. *)
Lemma sheets_loop file_path (frames : string → @DataFrame cell) names acc :
  NoDup (keys acc.1 ++ names) → keys acc.2 = keys acc.1 →
  (∀ n, n ∈ names → read_excel file_path n = Return (frames n)) →
  outcome (for_fold names acc (sheet_step file_path))
  = Return (acc.1 ++ ((λ n, (n, frames n)) <$> names),
            acc.2 ++ ((λ n, (n, SheetStructure (df_shape (frames n))
                                   (column_info (frames n)))) <$> names)).
Proof.
  revert acc. induction names as [|n names IH]; intros [d ss] Hnd Hkeys Hread.
  - simpl. by rewrite !app_nil_r.
  - cbn [for_fold fst snd] in *. rewrite outcome_bind. unfold analyze_sheet at 1.
    run_steps. rewrite (Hread n) by left. run_steps.
    rewrite for_each_returns by (by intros [col info] _). run_steps.
    assert (n ∉ keys d) as Hfresh.
    { apply NoDup_app in Hnd as (_ & Hdisj & _). intros Hin. apply (Hdisj n Hin). left. }
    rewrite IH; simpl.
    + rewrite !setitem_fresh by (by rewrite ?Hkeys). by rewrite <- !app_assoc.
    + rewrite setitem_fresh by done. unfold keys in *. rewrite fmap_app. simpl.
      by rewrite <- app_assoc.
    + rewrite !setitem_fresh by (by rewrite ?Hkeys). unfold keys in *.
      rewrite !fmap_app. simpl. by rewrite Hkeys.
    + intros m Hm. apply Hread. by right.
Qed.

(** The body of the extractor on a workbook that is read and written without
    error. *)
Lemma body_outcome file_path names (frames : string → @DataFrame cell) :
  ExcelFile file_path = Return names → NoDup names →
  (∀ n, n ∈ names → read_excel file_path n = Return (frames n)) →
  (∀ n, n ∈ names → to_csv (frames n) (csv_filename n) = Return tt) →
  (∀ a path, json_dump a path = Return tt) →
  outcome (extractor_body file_path)
  = Return (Some ((λ n, (n, frames n)) <$> names),
            Some ((λ n, (n, SheetStructure (df_shape (frames n))
                              (column_info (frames n)))) <$> names),
            Some (analyze_relationships astype_str h ((λ n, (n, frames n)) <$> names))).
Proof.
  intros Hfile Hnd Hread Hcsv Hjson.
  unfold analyze_excel_file_body. rewrite outcome_bind, Hfile. run_steps.
  pose proof (sheets_loop file_path frames names ([], []) Hnd eq_refl Hread) as Hloop.
  unfold dict in *. rewrite Hloop. run_steps.
  rewrite for_each_returns by done. run_steps.
  rewrite for_each_returns.
  - run_steps. rewrite Hjson. by run_steps.
  - intros [n df] Hin. apply list_elem_of_fmap in Hin as (m & [= -> ->] & Hm).
    run_steps. rewrite (Hcsv m Hm). by run_steps.
Qed.

(** X10: when the sheet names are distinct and no read or write fails, the
    extractor returns one frame and one structure per sheet, in the order of
    the workbook, each structure being the shape and the column profile of
    its frame, together with the relationships inferred from these frames. *)
Theorem X10_successful_run file_path names (frames : string → @DataFrame cell) :
  ExcelFile file_path = Return names → NoDup names →
  (∀ n, n ∈ names → read_excel file_path n = Return (frames n)) →
  (∀ n, n ∈ names → to_csv (frames n) (csv_filename n) = Return tt) →
  (∀ a path, json_dump a path = Return tt) →
  let all_sheets_data := (λ n, (n, frames n)) <$> names in
  outcome (extractor file_path)
  = Return (Some all_sheets_data,
            Some ((λ n, (n, SheetStructure (df_shape (frames n))
                              (column_info (frames n)))) <$> names),
            Some (analyze_relationships astype_str h all_sheets_data)).
Proof.
  intros Hfile Hnd Hread Hcsv Hjson all_sheets_data.
  pose proof (body_outcome file_path names frames Hfile Hnd Hread Hcsv Hjson) as Hbody.
  unfold analyze_excel_file, try_except. by rewrite Hbody.
Qed.

(** X11: the script prints its summary only when at least one sheet was
    analysed.  A workbook without sheets is analysed without error and three
    empty results are returned, and after an error three [None] are returned:
    in both cases the script ends with the output of the analysis. *)
Theorem X11_no_summary :
  let file_path := "/Users/mtz/Projects/GEP/Gep DEMO DATA.xlsx"%string in
  let run :=
    analyze_excel_file astype_str ExcelFile read_excel to_csv json_dump
      repr_names repr_cells head_to_string format_1f h file_path in
  (ExcelFile file_path = Return [] → (∀ a path, json_dump a path = Return tt) →
     outcome run = Return (Some [], Some [], Some [])
     ∧ script = IO (console run) (Return tt))
  ∧ (∀ e, outcome (extractor_body file_path) = Raise e →
       outcome run = Return (None, None, None)
       ∧ script = IO (console run) (Return tt)).
Proof.
  intros file_path run. unfold run. split.
  - intros Hfile Hjson.
    assert (outcome (extractor file_path) = Return (Some [], Some [], Some [])) as Hrun.
    { assert (outcome (extractor_body file_path)
              = Return (Some [], Some [], Some [])) as Hbody.
      { apply (body_outcome file_path [] (λ _, MkDataFrame 0 [] (λ _, MkSeries "" [])));
          [done|constructor| | |done]; by intros n ?%elem_of_nil. }
      unfold analyze_excel_file, try_except. by rewrite Hbody. }
    split; [done|]. unfold main, bind. fold file_path. rewrite Hrun. simpl.
    by rewrite app_nil_r.
  - intros e He.
    pose proof (extractor_catches _ _ _ _ _ _ _ _ _ _ file_path e He) as Hrun.
    split; [by rewrite Hrun|]. unfold main, bind. fold file_path.
    rewrite Hrun. simpl. by rewrite app_nil_r.
Qed.

End Run.

End RunExtras.

(** ** The values of the INSERT statements *)

Module SqlValueFacts.

Import Py SqlText.

Lemma escape_nil : replace "'" "''" "" = ""%string.
Proof. reflexivity. Qed.

Lemma escape_cons c s :
  replace "'" "''" (String c s)
  = if decide (c = "'"%char) then String "'" (String "'" (replace "'" "''" s))
    else String c (replace "'" "''" s).
Proof.
  unfold replace. cbn [replace_from startswith String.length]. simpl.
  destruct (decide (c = "'"%char)) as [->|Hne].
  - reflexivity.
  - rewrite bool_decide_eq_false_2 by congruence. reflexivity.
Qed.

Lemma append_nil_l s : "" +:+ s = s.
Proof. reflexivity. Qed.

Lemma append_cons c s t : String c s +:+ t = String c (s +:+ t).
Proof. reflexivity. Qed.

Lemma append_assoc s t u : (s +:+ t) +:+ u = s +:+ t +:+ u.
Proof. induction s as [|c s IH]; [done|]. by rewrite !append_cons, IH. Qed.

(** Appending to literal text, character by character. *)
Ltac push_append := rewrite ?append_cons, ?append_nil_l in *.

(** Reading what the escaping wrote gives the text back, up to the quote
    that closes the literal. *)
Lemma read_quoted_escape s rest :
  startswith "'" rest = false →
  read_quoted (replace "'" "''" s +:+ "'" +:+ rest) = Some (s, rest).
Proof.
  intros Hrest. induction s as [|c s IH].
  - rewrite escape_nil. push_append. cbn [read_quoted].
    rewrite decide_True by done.
    destruct rest as [|c' rest']; [done|].
    simpl in Hrest. rewrite andb_true_r in Hrest. apply bool_decide_eq_false in Hrest.
    by rewrite decide_False by congruence.
  - rewrite escape_cons. destruct (decide (c = "'"%char)) as [->|Hne].
    + push_append. cbn [read_quoted]. rewrite !decide_True by done.
      by rewrite IH.
    + push_append. cbn [read_quoted]. rewrite decide_False by done.
      by rewrite IH.
Qed.

(** A text without a quote is read up to the first quote after it. *)
Lemma read_quoted_plain s c rest :
  contains "'" s = false → c ≠ "'"%char →
  read_quoted (s +:+ "'" +:+ String c rest) = Some (s, String c rest).
Proof.
  intros Hs Hc. induction s as [|x s IH].
  - push_append. cbn [read_quoted]. rewrite decide_True by done.
    by rewrite decide_False by done.
  - simpl in Hs. rewrite andb_true_r in Hs. apply orb_false_elim in Hs as [Hx Hs].
    apply bool_decide_eq_false in Hx.
    push_append. cbn [read_quoted]. rewrite decide_False by congruence.
    by rewrite (IH Hs).
Qed.

Lemma append_length s t : String.length (s +:+ t) = String.length s + String.length t.
Proof. induction s as [|c s IH]; [done|]. rewrite append_cons. simpl. by rewrite IH. Qed.

(** A text without a quote is read whole when the literal ends after it. *)
Lemma read_quoted_whole s : contains "'" s = false → read_quoted (s +:+ "'") = Some (s, ""%string).
Proof.
  intros Hs. induction s as [|x s IH].
  - reflexivity.
  - simpl in Hs. rewrite andb_true_r in Hs. apply orb_false_elim in Hs as [Hx Hs].
    apply bool_decide_eq_false in Hx.
    push_append. cbn [read_quoted]. rewrite decide_False by congruence.
    by rewrite (IH Hs).
Qed.

(** What is read is shorter than what it is read from, by the closing quote
    and by one more character for a quote that is read. *)
Lemma read_quoted_shorter n s t rest :
  String.length s ≤ n → read_quoted s = Some (t, rest) →
  String.length t + String.length rest < String.length s
  ∧ (contains "'" t = true → String.length t + String.length rest + 1 < String.length s).
Proof.
  revert s t rest. induction n as [|n IH]; intros s t rest Hn Hread.
  { destruct s; [discriminate Hread|simpl in Hn; lia]. }
  destruct s as [|c s']; [discriminate Hread|].
  cbn [read_quoted] in Hread. destruct (decide (c = "'"%char)) as [->|Hc].
  - destruct s' as [|c' s''].
    { injection Hread as <- <-. simpl. split; [lia|discriminate]. }
    destruct (decide (c' = "'"%char)) as [->|Hc'].
    + destruct (read_quoted s'') as [[t' rest']|] eqn:E; [|discriminate Hread].
      simpl in Hread. injection Hread as <- <-.
      apply IH in E as [E1 E2]; [|simpl in Hn; lia].
      simpl String.length. split; [lia|intros _; lia].
    + injection Hread as <- <-. simpl. split; [lia|discriminate].
  - destruct (read_quoted s') as [[t' rest']|] eqn:E; [|discriminate Hread].
    simpl in Hread. injection Hread as <- <-.
    apply IH in E as [E1 E2]; [|simpl in Hn; lia].
    simpl String.length. split; [lia|].
    intros Hq. simpl in Hq. rewrite andb_true_r in Hq.
    rewrite bool_decide_eq_false_2 in Hq by congruence. simpl in Hq.
    specialize (E2 Hq). lia.
Qed.

(** X12: a text value is written as a literal that reads back as the same
    text, whatever quotes it holds, when what follows the literal does not
    begin with a quote; hence two different texts are never written
    alike. *)
Theorem X12_text_literal_round_trip (val : string) :
  (∀ rest, startswith "'" rest = false →
     read_literal (render_value (Some (VString val)) +:+ rest) = Some (val, rest))
  ∧ (∀ val', render_value (Some (VString val)) = render_value (Some (VString val')) →
       val = val').
Proof.
  assert (∀ v rest, startswith "'" rest = false →
            read_literal (render_value (Some (VString v)) +:+ rest) = Some (v, rest))
    as Hread.
  { intros v rest Hrest. cbn [render_value]. push_append. cbn [read_literal].
    rewrite decide_True by done.
    rewrite append_assoc. by apply read_quoted_escape. }
  split; [apply Hread|].
  intros val' Heq.
  pose proof (Hread val EmptyString eq_refl) as H1.
  pose proof (Hread val' EmptyString eq_refl) as H2.
  rewrite Heq in H1. congruence.
Qed.

(** X13: the text of an object that is neither missing, text, number nor
    datetime is written between quotes as it is.  The literal reads back as
    the text exactly when the text holds no quote; and when the first quote
    of the text is followed by a character that is not a quote, the literal
    that is read ends at that quote and the remainder of the text is left
    outside the literal. *)
Theorem X13_unescaped_literals (text : string) :
  render_value (Some (VOther text)) = "'" +:+ text +:+ "'"
  ∧ (read_literal (render_value (Some (VOther text))) = Some (text, ""%string)
     ↔ contains "'" text = false)
  ∧ (∀ before c after,
       text = before +:+ "'" +:+ String c after →
       contains "'" before = false → c ≠ "'"%char →
       read_literal (render_value (Some (VOther text)))
       = Some (before, String c after +:+ "'")).
Proof.
  split; [reflexivity|]. cbn [render_value]. push_append. cbn [read_literal].
  rewrite decide_True by done. split.
  - split; [|apply read_quoted_whole].
    intros Hread. apply (read_quoted_shorter _ _ _ _ (le_n _)) in Hread as [_ Hquote].
    destruct (contains "'" text); [|done].
    specialize (Hquote eq_refl). rewrite append_length in Hquote. simpl in Hquote. lia.
  - intros before c after -> Hbefore Hc.
    rewrite !append_assoc. push_append.
    apply (read_quoted_plain before c (after +:+ "'") Hbefore Hc).
Qed.

Lemma X12_text_literal_round_trip_witness :
  startswith "'" ", 7)" = false
  ∧ read_literal (render_value (Some (VString "O'Neil's")) +:+ ", 7)")
    = Some ("O'Neil's"%string, ", 7)"%string).
Proof.
  assert (Hrest : startswith "'" ", 7)" = false) by reflexivity.
  split; [exact Hrest|].
  exact (proj1 (X12_text_literal_round_trip "O'Neil's") ", 7)"%string Hrest).
Defined.

Lemma X13_unescaped_literals_witness :
  contains "'" "quarter past 5 o" = false ∧ "c"%char ≠ "'"%char
  ∧ read_literal (render_value (Some (VOther "quarter past 5 o'clock")))
    = Some ("quarter past 5 o"%string, "clock'"%string).
Proof.
  assert (Hbefore : contains "'" "quarter past 5 o" = false) by reflexivity.
  assert (Hc : "c"%char ≠ "'"%char) by discriminate.
  split; [exact Hbefore|]. split; [exact Hc|].
  exact (proj2 (proj2 (X13_unescaped_literals "quarter past 5 o'clock"))
           "quarter past 5 o"%string "c"%char "lock"%string eq_refl Hbefore Hc).
Defined.

End SqlValueFacts.

(** ** SQL type inference: the storage rules *)

Module TypeInferenceExtras.

Import Py SqlGenerator TypeInferenceSpec.

(** The types of the rules on storage (a sized VARCHAR apart). *)
Lemma varchar_is_no_key n :
  n ≤ 500 → contains "PRIMARY KEY" ("VARCHAR(" +:+ pretty n +:+ ")") = false.
Proof.
  intros Hn.
  assert (Forall (λ n, contains "PRIMARY KEY" ("VARCHAR(" +:+ pretty n +:+ ")") = false)
                 (seq 0 501)) as Hall.
  { apply (bool_decide_unpack _). by vm_compute. }
  rewrite Forall_forall in Hall. apply Hall, elem_of_seq. lia.
Qed.

(** A leaf of the rules that declares no key. *)
Ltac no_key :=
  split;
  [ intros Hk; first [discriminate Hk | done]
  | intros [?|(? & ? & ? & ?)]; first [done | congruence] ].

Section Facts.

Context {cell : Type}.
Variable str : cell → string.

Abbreviation sql_type := (map_pandas_to_sql_type str).

(** No rule on the name applies: every test on the name fails. *)
Lemma no_name_rule column_name :
  name_rule_applies column_name = false →
  contains "Code" column_name || endswith "_id" column_name = false
  ∧ contains "Date" column_name || contains "date" (lower column_name) = false
  ∧ contains "Time" column_name || contains "time" (lower column_name) = false
  ∧ contains "Hours" column_name || contains "Duration" column_name
    || contains "Value" column_name || contains "Revenue" column_name
    || contains "Price" column_name = false.
Proof.
  unfold name_rule_applies.
  destruct (contains "Code" column_name); simpl; [done|].
  destruct (endswith "_id" column_name); simpl; [done|].
  destruct (contains "Date" column_name); simpl; [done|].
  destruct (contains "date" (lower column_name)); simpl; [done|].
  destruct (contains "Time" column_name); simpl; [done|].
  destruct (contains "time" (lower column_name)); simpl; [done|].
  destruct (contains "Hours" column_name); simpl; [done|].
  destruct (contains "Duration" column_name); simpl; [done|].
  destruct (contains "Value" column_name); simpl; [done|].
  destruct (contains "Revenue" column_name); simpl; [done|].
  destruct (contains "Price" column_name); simpl; done.
Qed.

(** X14: for a column stored as object to which no rule on the name applies,
    the type is VARCHAR(50) without sampled values; otherwise it is TEXT when
    the longest sampled value has more than 235 characters and VARCHAR of
    that length plus 20 when it has not, so that the declared length is
    between 20 and 255 and the cap at 500 never shows. *)
Theorem X14_object_column column_name sample_values unique_count row_count :
  name_rule_applies column_name = false →
  sql_type "object" column_name sample_values unique_count row_count
  = match sample_values with
    | [] => "VARCHAR(50)"%string
    | _ :: _ =>
        let longest := max_list ((λ val, py_len (str val)) <$> sample_values) in
        if bool_decide (235 < longest) then "TEXT"%string
        else ("VARCHAR(" +:+ pretty (longest + 20) +:+ ")")%string
    end.
Proof.
  intros Hname. apply no_name_rule in Hname as (H1 & H2 & H3 & H4).
  unfold map_pandas_to_sql_type. rewrite H1, H2, H3, H4.
  replace (contains "int" "object") with false by reflexivity.
  rewrite andb_false_r.
  replace (contains "int64" "object") with false by reflexivity.
  replace (contains "float64" "object") with false by reflexivity.
  replace (contains "datetime64" "object") with false by reflexivity.
  replace (contains "object" "object") with true by reflexivity.
  destruct sample_values as [|v vs]; [reflexivity|].
  cbn zeta. set (longest := max_list _).
  case_bool_decide as Hlong.
  - rewrite bool_decide_eq_true_2 by lia. done.
  - rewrite bool_decide_eq_false_2 by lia.
    by replace (Nat.min (longest + 20) 500) with (longest + 20) by lia.
Qed.

(** The types of the rules on storage. *)
Lemma storage_rule_type dtype column_name s u r :
  name_rule_applies column_name = false →
  sql_type dtype column_name s u r
    ∈ [ "TINYINT(1)"; "BIGINT PRIMARY KEY"; "BIGINT"; "DECIMAL(15,4)"; "DATETIME";
        "TEXT"; "VARCHAR(255)" ]%string
  ∨ ∃ n, 20 ≤ n ≤ 255 ∧ sql_type dtype column_name s u r
                         = ("VARCHAR(" +:+ pretty n +:+ ")")%string.
Proof.
  intros Hname. apply no_name_rule in Hname as (H1 & H2 & H3 & H4).
  unfold map_pandas_to_sql_type. rewrite H1, H2, H3, H4.
  destruct (bool_decide (u ≤ 2) && contains "int" dtype); [left; set_solver|].
  destruct (contains "int64" dtype).
  { case_bool_decide; left; set_solver. }
  destruct (contains "float64" dtype); [left; set_solver|].
  destruct (contains "datetime64" dtype); [left; set_solver|].
  destruct (contains "object" dtype); [|left; set_solver].
  destruct s as [|v vs].
  { right. exists 50. split; [lia|]. by rewrite bool_decide_eq_false_2 by lia. }
  cbn zeta. set (longest := max_list _).
  case_bool_decide as Hlong; [left; set_solver|].
  right. exists (Nat.min (longest + 20) 500). split; [lia|done].
Qed.

(** X15: the inferred type is one of six types of the name rules, one of
    seven types of the storage rules, or a VARCHAR with a length between 20
    and 255; it declares a primary key exactly when the name contains Code or
    ends in _id, or when no name rule applies and the column is stored as
    int64, is not taken for a boolean (at most two distinct values) and has
    as many distinct values as the table has rows. *)
Theorem X15_type_range_and_keys dtype column_name sample_values unique_count row_count :
  let t := sql_type dtype column_name sample_values unique_count row_count in
  (t ∈ name_rule_types
   ∨ t ∈ [ "TINYINT(1)"; "BIGINT PRIMARY KEY"; "BIGINT"; "DECIMAL(15,4)"; "DATETIME";
           "TEXT"; "VARCHAR(255)" ]%string
   ∨ ∃ n, 20 ≤ n ≤ 255 ∧ t = ("VARCHAR(" +:+ pretty n +:+ ")")%string)
  ∧ (contains "PRIMARY KEY" t = true
     ↔ contains "Code" column_name || endswith "_id" column_name = true
       ∨ (name_rule_applies column_name = false
          ∧ bool_decide (unique_count ≤ 2) && contains "int" dtype = false
          ∧ contains "int64" dtype = true
          ∧ unique_count = row_count)).
Proof.
  intros t. split.
  - destruct (name_rule_applies column_name) eqn:Hname.
    + left. by apply name_rule_type.
    + right. by apply storage_rule_type.
  - unfold t, map_pandas_to_sql_type, name_rule_applies.
    destruct (contains "Code" column_name || endswith "_id" column_name) eqn:Hkey.
    { simpl. destruct (contains "int" dtype); split; auto. }
    rewrite orb_false_l.
    destruct (contains "Date" column_name || contains "date" (lower column_name)) eqn:Hd.
    { rewrite orb_true_l. destruct (contains "datetime64" dtype); no_key. }
    rewrite orb_false_l.
    destruct (contains "Time" column_name || contains "time" (lower column_name)) eqn:Ht.
    { rewrite orb_true_l. no_key. }
    rewrite orb_false_l.
    destruct (contains "Hours" column_name || contains "Duration" column_name
              || contains "Value" column_name || contains "Revenue" column_name
              || contains "Price" column_name) eqn:Hm; [no_key|].
    destruct (bool_decide (unique_count ≤ 2) && contains "int" dtype) eqn:Hb; [no_key|].
    clear Hb. destruct (contains "int64" dtype) eqn:H64.
    { destruct (bool_decide (unique_count = row_count)) eqn:Hu.
      - apply bool_decide_eq_true in Hu. split; [|done]. intros _. by right.
      - apply bool_decide_eq_false in Hu. no_key. }
    destruct (contains "float64" dtype); [no_key|].
    destruct (contains "datetime64" dtype); [no_key|].
    destruct (contains "object" dtype); [|no_key].
    destruct sample_values as [|v vs].
    { rewrite bool_decide_eq_false_2 by lia. rewrite varchar_is_no_key by lia. no_key. }
    cbn zeta. set (longest := max_list _).
    case_bool_decide; [no_key|].
    rewrite varchar_is_no_key by lia. no_key.
Qed.

End Facts.

Lemma X14_object_column_witness :
  name_rule_applies "Company Name" = false
  ∧ map_pandas_to_sql_type Sample.str_int "object" "Company Name" [12345; 7]%Z 2 2
    = "VARCHAR(25)"%string.
Proof.
  assert (Hname : name_rule_applies "Company Name" = false) by reflexivity.
  split; [exact Hname|].
  exact (X14_object_column Sample.str_int "Company Name" [12345; 7]%Z 2 2 Hname).
Defined.

End TypeInferenceExtras.

(** ** The statements of the SQL script *)

Module SqlTextFacts.

Import Effects Py PyFacts ExcelReader SqlGenerator SqlText TypeInferenceSpec.

Lemma foldl_ext_in {S X} (f g : S → X → S) (l : list X) (a : S) :
  (∀ x acc, x ∈ l → f acc x = g acc x) → foldl f a l = foldl g a l.
Proof.
  revert a. induction l as [|x l IH]; intros a Hfg; simpl; [done|].
  rewrite (Hfg x a) by left. apply IH. intros y acc Hy. apply Hfg. by right.
Qed.

Section Facts.

Context {cell : Type} `{EqDecision cell}.
Variable str : cell → string.
Variable str_lower : string → string.
Variable str_strip : string → string.
Implicit Types (df : @SqlFrame cell) (all_data : dict (@SqlFrame cell)).

(** X16: a column whose name contains Code or ends in _id is always part of
    the primary key of its table, whatever its values: a table with several
    such columns gets a composite primary key of at least as many columns. *)
Theorem X16_key_named_columns df :
  (∀ col, col ∈ columns (frame df) →
     contains "Code" col || endswith "_id" col = true →
     safe_col_name str_lower col ∈ primary_keys str str_lower df)
  ∧ length (filter (λ col, contains "Code" col || endswith "_id" col = true)
                   (columns (frame df)))
    ≤ length (primary_keys str str_lower df).
Proof.
  assert (∀ col, contains "Code" col || endswith "_id" col = true →
            contains "PRIMARY KEY" (column_sql_type str df col) = true) as Hkey.
  { intros col Hname. unfold column_sql_type, map_pandas_to_sql_type.
    rewrite Hname. by destruct (contains "int" _). }
  split.
  - intros col Hcol Hname. unfold primary_keys.
    apply list_elem_of_fmap. exists col. split; [done|].
    apply list_elem_of_filter. split; [by apply Hkey|done].
  - unfold primary_keys. rewrite length_fmap.
    induction (columns (frame df)) as [|col cols IH]; [done|].
    rewrite !filter_cons.
    destruct (decide (contains "Code" col || endswith "_id" col = true)) as [Hname|?].
    + rewrite decide_True by by apply Hkey. simpl. lia.
    + destruct (decide (contains "PRIMARY KEY" (column_sql_type str df col) = true));
        simpl; lia.
Qed.

(** X17: the two generators write statements for the seven tables of
    [table_order] only, in that order: they agree on two dictionaries that
    bind these seven names alike, whatever else the dictionaries hold and in
    whatever order, and with none of the seven they write their banner
    alone. *)
Theorem X17_fixed_tables {json : Type} all_data all_data' (a a' : json) :
  (∀ table_name, table_name ∈ table_order →
     item all_data table_name = item all_data' table_name) →
  generate_table_creation_sql str str_lower str_strip all_data a
    = generate_table_creation_sql str str_lower str_strip all_data' a'
  ∧ generate_data_insertion_sql str_lower all_data
    = generate_data_insertion_sql str_lower all_data'
  ∧ ((∀ table_name, table_name ∈ table_order → item all_data table_name = None) →
     generate_table_creation_sql str str_lower str_strip all_data a
       = banner "TABLE CREATION STATEMENTS"
     ∧ generate_data_insertion_sql str_lower all_data
       = banner "DATA INSERTION STATEMENTS").
Proof.
  intros Hsame. split_and!.
  - unfold generate_table_creation_sql. apply foldl_ext_in.
    intros t acc Ht. by rewrite (Hsame t Ht).
  - unfold generate_data_insertion_sql. apply foldl_ext_in.
    intros t acc Ht. by rewrite (Hsame t Ht).
  - intros Hnone. split.
    + unfold generate_table_creation_sql.
      rewrite (foldl_ext_in _ (λ sql _, sql)).
      * reflexivity.
      * intros t acc Ht. by rewrite (Hnone t Ht).
    + unfold generate_data_insertion_sql.
      rewrite (foldl_ext_in _ (λ sql _, sql)).
      * reflexivity.
      * intros t acc Ht. by rewrite (Hnone t Ht).
Qed.

End Facts.

End SqlTextFacts.

(** ** The runs of the two generators *)

Module GeneratorRunFacts.

Import Effects Py PyFacts RunExtras.

Lemma for_fold_raises {X S} (l : list X) (s : S) (body : S → X → io S) x :
  x ∈ l → (∀ s, raised (body s x)) → raised (for_fold l s body).
Proof.
  intros Hx Hbody. revert s. induction l as [|y l IH]; intros s.
  - by apply elem_of_nil in Hx.
  - simpl. unfold raised. rewrite outcome_bind.
    destruct (outcome (body s y)) as [s'|e] eqn:Hy; [|by eexists].
    apply elem_of_cons in Hx as [->|Hx].
    + destruct (Hbody s) as [e He]. congruence.
    + by apply IH.
Qed.

Lemma bind_return {A B} (m : io A) (k : A → io B) a :
  outcome m = Return a → bind m k = IO (console m ++ console (k a)) (outcome (k a)).
Proof. intros Hm. unfold bind. by rewrite Hm. Qed.

Section Facts.

Context {json frame : Type}.
Variable json_load : string → result json.
Variable read_csv : string → result frame.
Variable timestamp : string.
Variable generate_table_creation_sql : dict frame → json → result string.
Variable generate_data_insertion_sql : dict frame → result string.
Variable generate_foreign_key_constraints : result string.
Variable generate_sample_queries : result string.
Variable report_text : json → dict frame → result string.

Abbreviation sql_generator write_text :=
  (SqlGenerator.generate_sql_schema_and_data json_load read_csv write_text timestamp
     generate_table_creation_sql generate_data_insertion_sql
     generate_foreign_key_constraints generate_sample_queries).
Abbreviation report_generator write_text :=
  (Report.generate_comprehensive_report json_load read_csv write_text report_text).

Lemma read_all_data_raises path e :
  path ∈ Generated.csv_files.*2 → read_csv path = Raise e →
  ∃ e', Generated.read_all_data read_csv = IO [] (Raise e').
Proof.
  intros Hpath He. apply list_elem_of_fmap in Hpath as ([name p] & -> & Hin). simpl in He.
  assert (raised (Generated.read_all_data read_csv)) as [e' He'].
  { unfold Generated.read_all_data. apply (for_fold_raises _ _ _ (name, p)); [done|].
    intros s. unfold raised. rewrite outcome_bind. simpl. rewrite He. by eexists. }
  exists e'.
  assert (console (Generated.read_all_data read_csv) = []) as Hsilent.
  { unfold Generated.read_all_data, Generated.csv_files.
    cbn [for_fold]. unfold bind, call. simpl.
    repeat match goal with
           | |- context [read_csv ?p] => destruct (read_csv p); simpl
           end; reflexivity. }
  destruct (Generated.read_all_data read_csv) as [c o]. simpl in *. by subst.
Qed.

Lemma read_all_data_returns (frames : string → frame) :
  (∀ path, path ∈ Generated.csv_files.*2 → read_csv path = Return (frames path)) →
  Generated.read_all_data read_csv
  = IO [] (Return ((λ entry, (entry.1, frames entry.2)) <$> Generated.csv_files)).
Proof.
  intros Hread. unfold Generated.read_all_data, Generated.csv_files.
  cbn [for_fold]. unfold bind, call.
  rewrite !Hread by (cbn; set_solver). reflexivity.
Qed.

(** X18: every one of the seven flat files is required by both generators:
    when one of them cannot be read, the generator raises, with nothing
    printed, and nothing is written: its run is the same whatever the writer
    of the output file does. *)
Theorem X18_all_files_required path e write_text write_text' :
  path ∈ Generated.csv_files.*2 → read_csv path = Raise e →
  (∃ e', sql_generator write_text = IO [] (Raise e'))
  ∧ sql_generator write_text' = sql_generator write_text
  ∧ (∃ e', report_generator write_text = IO [] (Raise e'))
  ∧ report_generator write_text' = report_generator write_text.
Proof.
  intros Hpath He. destruct (read_all_data_raises path e Hpath He) as [e' He'].
  assert (∀ w, ∃ e'', sql_generator w = IO [] (Raise e'')
                      ∧ ∀ w', sql_generator w' = IO [] (Raise e'')) as Hsql.
  { intros w. unfold SqlGenerator.generate_sql_schema_and_data.
    destruct (json_load Generated.analysis_json_path) as [a|e0] eqn:Hload.
    - exists e'. split; [|intros w'];
        rewrite (bind_return _ _ a) by reflexivity;
        rewrite He', (ErrorSpec.bind_raise _ _ e') by reflexivity; reflexivity.
    - exists e0. split; [|intros w'];
        by rewrite (ErrorSpec.bind_raise _ _ e0) by reflexivity. }
  assert (∀ w, ∃ e'', report_generator w = IO [] (Raise e'')
                      ∧ ∀ w', report_generator w' = IO [] (Raise e'')) as Hreport.
  { intros w. unfold Report.generate_comprehensive_report.
    destruct (json_load Generated.analysis_json_path) as [a|e0] eqn:Hload.
    - exists e'. split; [|intros w'];
        rewrite (bind_return _ _ a) by reflexivity;
        rewrite He', (ErrorSpec.bind_raise _ _ e') by reflexivity; reflexivity.
    - exists e0. split; [|intros w'];
        by rewrite (ErrorSpec.bind_raise _ _ e0) by reflexivity. }
  destruct (Hsql write_text) as (e1 & H1 & H1').
  destruct (Hreport write_text) as (e2 & H2 & H2').
  split_and!; [by exists e1|by rewrite H1, H1'|by exists e2|by rewrite H2, H2'].
Qed.

(** X19: when the summary and the seven flat files can be read and the
    helpers return, the SQL generator hands every one of the seven tables of
    [table_order] to its helpers, writes the header followed by the four
    generated parts in their order, prints one line and returns the text it
    wrote. *)
Theorem X19_script_assembly write_text (frames : string → frame)
    analysis_data tables inserts constraints queries :
  let all_data := (λ entry, (entry.1, frames entry.2)) <$> Generated.csv_files in
  let sql_script :=
    SqlGenerator.header timestamp +:+ tables +:+ inserts +:+ constraints +:+ queries in
  json_load Generated.analysis_json_path = Return analysis_data →
  (∀ path, path ∈ Generated.csv_files.*2 → read_csv path = Return (frames path)) →
  generate_table_creation_sql all_data analysis_data = Return tables →
  generate_data_insertion_sql all_data = Return inserts →
  generate_foreign_key_constraints = Return constraints →
  generate_sample_queries = Return queries →
  write_text "/Users/mtz/Projects/GEP/backend/gep_demo_complete.sql" sql_script = Return tt →
  (∀ table_name, table_name ∈ SqlText.table_order → is_Some (item all_data table_name))
  ∧ sql_generator write_text
    = IO ["Complete SQL script generated: /Users/mtz/Projects/GEP/backend/gep_demo_complete.sql"%string]
         (Return sql_script).
Proof.
  intros all_data sql_script Hload Hread Htables Hinserts Hfk Hq Hwrite. split.
  - intros t Ht. unfold all_data, Generated.csv_files, SqlText.table_order in *.
    repeat (apply elem_of_cons in Ht as [->|Ht]; [by eexists|]).
    by apply elem_of_nil in Ht.
  - unfold SqlGenerator.generate_sql_schema_and_data.
    rewrite (read_all_data_returns frames Hread). fold all_data.
    unfold bind, call. rewrite Hload. simpl. rewrite Htables. simpl.
    rewrite Hinserts. simpl. rewrite Hfk. simpl. rewrite Hq. simpl.
    unfold sql_script in Hwrite. rewrite <- !SqlValueFacts.append_assoc in Hwrite.
    rewrite Hwrite. simpl. unfold sql_script.
    by rewrite <- !SqlValueFacts.append_assoc.
Qed.

End Facts.

End GeneratorRunFacts.

(** ** The conversion before the JSON dump *)

Module SerializableFacts.

Import Serializable.

(** Induction over nested arrays and nested objects. *)
Lemma ndarray_nested_ind (P : ndarray → Prop) :
  (∀ z, P (NdInteger z)) → (∀ x, P (NdFloating x)) →
  (∀ items, Forall P items → P (NdArray items)) →
  ∀ a, P a.
Proof.
  intros Hint Hfloat Harray. fix IH 1. intros [z|x|items].
  - apply Hint.
  - apply Hfloat.
  - apply Harray. induction items as [|a items IHitems]; constructor.
    + apply IH.
    + apply IHitems.
Qed.

Lemma pyobj_nested_ind (P : pyobj → Prop) :
  (∀ entries, Forall (λ kv, P kv.1 ∧ P kv.2) entries → P (PyDict entries)) →
  (∀ elements, Forall P elements → P (PyList elements)) →
  (∀ elements, Forall P elements → P (PyTuple elements)) →
  (∀ item, P item → P (NpTimedelta item)) →
  (∀ listed, P listed → P (NpOtherArray listed)) →
  (∀ obj, ¬ container obj → P obj) →
  ∀ obj, P obj.
Proof.
  intros Hdict Hlist Htuple Hdelta Harray Hleaf. fix IH 1. intros obj.
  destruct obj as [entries|elements|elements| | | |item| | |listed| | | | | | | |];
    try (apply Hleaf; by intros []).
  - apply Hdict. induction entries as [|[k v] entries IHentries]; constructor.
    + split; apply IH.
    + apply IHentries.
  - apply Hlist. induction elements as [|x elements IHelements]; constructor.
    + apply IH.
    + apply IHelements.
  - apply Htuple. induction elements as [|x elements IHelements]; constructor.
    + apply IH.
    + apply IHelements.
  - apply Hdelta, IH.
  - apply Harray, IH.
Qed.

(** A conjunction over a list, as the recursive predicates write it. *)
Lemma fold_right_and {X} (Q : X → Prop) (l : list X) :
  fold_right (λ x P, Q x ∧ P) True l ↔ Forall Q l.
Proof.
  induction l as [|x l IH]; simpl.
  - split; [constructor|done].
  - rewrite Forall_cons, IH. done.
Qed.

Lemma Forall_map_iff {X Y} (f : X → Y) (Q : Y → Prop) (R : X → Prop) (l : list X) :
  Forall (λ x, Q (f x) ↔ R x) l → Forall Q (map f l) ↔ Forall R l.
Proof.
  induction 1 as [|x l Hx _ IH]; simpl; [done|]. by rewrite !Forall_cons, Hx, IH.
Qed.

(** Mapping [f] over a list that [g] was mapped over changes nothing when
    [f] changes none of its items. *)
Lemma map_map_fixed {X Y} (f : Y → Y) (g : X → Y) (l : list X) :
  map f (map g l) = map g l ↔ Forall (λ x, f (g x) = g x) l.
Proof.
  induction l as [|x l IH]; simpl.
  - split; [constructor|done].
  - rewrite Forall_cons, <- IH. split.
    + intros [= Hx Hl]. done.
    + intros [-> ->]. done.
Qed.

Lemma tolist_numpy_free a : numpy_free (tolist a).
Proof.
  induction a as [z|x|items IH] using ndarray_nested_ind; simpl; [done|done|].
  apply fold_right_and, Forall_map. done.
Qed.

Lemma convert_tolist a : convert_to_serializable (tolist a) = tolist a ↔ no_nan_array a.
Proof.
  induction a as [z|x|items IH] using ndarray_nested_ind; simpl.
  - done.
  - destruct x; simpl; split; congruence.
  - rewrite fold_right_and. rewrite Forall_forall in IH. split.
    + intros [= Hitems]. apply map_map_fixed in Hitems.
      rewrite Forall_forall in *. intros a Ha. by apply (IH a Ha), Hitems.
    + intros Hitems. f_equal. apply map_map_fixed.
      rewrite Forall_forall in *. intros a Ha. by apply (IH a Ha), Hitems.
Qed.

(** X20: the result of the conversion holds no numpy scalar and no numpy
    array, at any depth, exactly when the conversion reaches every numpy
    value of the object and can turn it into a Python value.  It does not
    for the others: a numpy scalar that is neither an integer nor a float,
    such as an [np.bool_], and an [np.longdouble] are returned as they are
    inside a list, the elements of an array of objects are listed as they
    are, and a tuple and the keys of a dictionary are not looked into. *)
Theorem X20_no_numpy_left :
  (∀ obj, numpy_free (convert_to_serializable obj) ↔ numpy_within_reach obj)
  ∧ (∀ text x,
       convert_to_serializable (PyList [NpScalar false text; NpLongDouble x])
       = PyList [NpScalar false text; NpLongDouble x])
  ∧ (∀ elements, convert_to_serializable (NpOtherArray (PyList elements)) = PyList elements)
  ∧ (∀ elements, convert_to_serializable (PyTuple elements) = PyTuple elements)
  ∧ (∀ key value,
       convert_to_serializable (PyDict [(key, value)])
       = PyDict [(key, convert_to_serializable value)]).
Proof.
  split; [|by split_and!].
  intros obj.
  induction obj as [entries IH|elements IH|elements _|item _|listed _|obj Hleaf]
    using pyobj_nested_ind; simpl.
  - rewrite !fold_right_and. apply Forall_map_iff.
    eapply Forall_impl; [exact IH|]. intros [k v] [_ Hv]. simpl in *. by rewrite Hv.
  - rewrite !fold_right_and. apply Forall_map_iff.
    eapply Forall_impl; [exact IH|]. by intros x Hx.
  - done.
  - done.
  - done.
  - destruct obj as [| | |z|x|x| |[] text|items| | | |[]| | | | |[] text];
      simpl; try done; try (by destruct Hleaf).
    split; [done|]. intros _. apply fold_right_and, Forall_map.
    apply Forall_forall. intros a _. apply tolist_numpy_free.
Qed.

(** X21: converting a second time changes nothing exactly when one
    conversion is enough for the object: no [np.floating] and no array of
    integers or floats among the converted values holds a NaN, which the
    first conversion turns into a Python NaN and only a second one into
    [None], and what an [np.timedelta64] or another array is replaced by
    needs no conversion. *)
Theorem X21_convert_twice obj :
  convert_to_serializable (convert_to_serializable obj) = convert_to_serializable obj
  ↔ converted_at_once obj.
Proof.
  induction obj as [entries IH|elements IH|elements _|item _|listed _|obj Hleaf]
    using pyobj_nested_ind; simpl.
  - rewrite fold_right_and. rewrite Forall_forall in IH. split.
    + intros [= Hentries].
      apply (map_map_fixed (λ kv, (kv.1, convert_to_serializable kv.2))) in Hentries.
      rewrite Forall_forall in *. intros [k v] Hkv.
      apply (IH _ Hkv). by injection (Hentries _ Hkv).
    + intros Hentries. f_equal.
      apply (map_map_fixed (λ kv, (kv.1, convert_to_serializable kv.2))).
      rewrite Forall_forall in *. intros [k v] Hkv. simpl. f_equal.
      by apply (IH _ Hkv), (Hentries _ Hkv).
  - rewrite fold_right_and. rewrite Forall_forall in IH. split.
    + intros [= Helements]. apply map_map_fixed in Helements.
      rewrite Forall_forall in *. intros x Hx. by apply (IH x Hx), Helements.
    + intros Helements. f_equal. apply map_map_fixed.
      rewrite Forall_forall in *. intros x Hx. by apply (IH x Hx), Helements.
  - done.
  - done.
  - done.
  - destruct obj as [| | |z|x|x| |[] text|items| | | |[]| | | | |[] text];
      simpl; try done; try (by destruct Hleaf).
    + destruct x; simpl; split; congruence.
    + rewrite fold_right_and. split.
      * intros [= Hitems]. apply map_map_fixed in Hitems.
        eapply Forall_impl; [exact Hitems|]. intros a Ha. by apply convert_tolist.
      * intros Hitems. f_equal. apply map_map_fixed.
        eapply Forall_impl; [exact Hitems|]. intros a Ha. by apply convert_tolist.
Qed.

Lemma X20_no_numpy_left_witness :
  numpy_within_reach
    (PyDict [(PyStr "shape", PyTuple [PyInt 2; PyInt 1]);
             (PyStr "null_count", NpInteger 0);
             (PyStr "sample_values", NpArray [NdFloating (Number 1); NdFloating NaN])])
  ∧ numpy_free
      (convert_to_serializable
         (PyDict [(PyStr "shape", PyTuple [PyInt 2; PyInt 1]);
                  (PyStr "null_count", NpInteger 0);
                  (PyStr "sample_values", NpArray [NdFloating (Number 1); NdFloating NaN])])).
Proof.
  assert (Hreach : numpy_within_reach
            (PyDict [(PyStr "shape", PyTuple [PyInt 2; PyInt 1]);
                     (PyStr "null_count", NpInteger 0);
                     (PyStr "sample_values",
                      NpArray [NdFloating (Number 1); NdFloating NaN])]))
    by (simpl; tauto).
  split; [exact Hreach|].
  exact (proj2 (proj1 X20_no_numpy_left _) Hreach).
Defined.

Lemma X21_convert_twice_witness :
  converted_at_once
    (PyDict [(PyStr "null_count", NpInteger 3);
             (PyStr "sample_values", PyList [PyFloat NaN; NpFloating (Number 1)])])
  ∧ convert_to_serializable
      (convert_to_serializable
         (PyDict [(PyStr "null_count", NpInteger 3);
                  (PyStr "sample_values", PyList [PyFloat NaN; NpFloating (Number 1)])]))
    = PyDict [(PyStr "null_count", PyInt 3);
              (PyStr "sample_values", PyList [PyNone; PyFloat (Number 1)])].
Proof.
  assert (Honce : converted_at_once
            (PyDict [(PyStr "null_count", NpInteger 3);
                     (PyStr "sample_values",
                      PyList [PyFloat NaN; NpFloating (Number 1)])])).
  { simpl. repeat split. discriminate. }
  split; [exact Honce|].
  exact (proj2 (X21_convert_twice _) Honce).
Defined.

End SerializableFacts.

(** ** The relationships the report lists *)

Module ReportFacts.

Import Py PercentFacts ExcelReader SimilarityFacts RelationshipFacts ReportText.

Lemma filter_none {A} (P : A → Prop) `{∀ x, Decision (P x)} (l : list A) :
  Forall (λ x, ¬ P x) l → filter P l = [].
Proof.
  induction 1 as [|x l Hx _ IH]; [done|]. by rewrite filter_cons_False.
Qed.

(** In a list in descending order with no percentage above 100, the entries
    of 100 percent come first. *)
Lemma primary_is_prefix l :
  StronglySorted desc l → Forall (λ r, (match_percentage r <= 100)%Q) l →
  primary_relationships l = take (length (primary_relationships l)) l.
Proof.
  unfold primary_relationships. intros Hs Hle.
  induction Hs as [|r l Hs IH Hr]; [done|].
  apply Forall_cons in Hle as [Hr100 Hle]. rewrite filter_cons.
  destruct (decide (match_percentage r == 100)%Q) as [Heq|Hne].
  - simpl. f_equal. by apply IH.
  - assert (filter (λ rel, (match_percentage rel == 100)%Q) l = []) as ->; [|done].
    apply filter_none. rewrite Forall_forall in Hr |- *.
    intros x Hx Heq. apply Hne. apply Qle_antisym; [done|].
    rewrite <- Heq. by apply Hr.
Qed.

Section Facts.

Context {cell : Type} `{EqDecision cell}.
Variable astype_str : cell → string.

(** X22: the relationships the report lists are the first entries of the
    analysis, as many as have a match of 100 percent and ten at most: every
    one of them has 100 percent, and an entry of the analysis that is not
    listed has less than 100 percent or comes after ten such entries. *)
Theorem X22_listed_relationships h (data : dict (@DataFrame cell)) :
  let analysis := analyze_relationships astype_str h data in
  listed_relationships analysis
    = take (10 `min` length (primary_relationships analysis)) analysis
  ∧ Forall (λ rel, (match_percentage rel == 100)%Q) (listed_relationships analysis)
  ∧ length (listed_relationships analysis) ≤ 10.
Proof.
  intros analysis. split_and!.
  - unfold listed_relationships. rewrite primary_is_prefix at 1.
    + by rewrite take_take.
    + apply sort_sorted.
    + apply Forall_forall. intros r Hr.
      apply elem_of_analyze_relationships, elem_of_candidates in Hr
        as (i & j & s1 & s2 & d1 & d2 & c1 & c2 & _ & _ & _ & _ & _ & _ & _ & _ & _ & ->).
      apply match_percentage_bounds.
  - unfold listed_relationships, primary_relationships.
    apply Forall_take, Forall_forall. intros r Hr.
    by apply list_elem_of_filter in Hr as [? _].
  - unfold listed_relationships. rewrite length_take. lia.
Qed.

End Facts.

End ReportFacts.

(** ** The further properties on the sample inputs *)

Module ExtraCases.

Import Effects Py ExcelReader SqlGenerator SqlText Sample.
Import RunExtras SqlTextFacts GeneratorRunFacts.

Lemma X10_successful_run_witness :
  two_sheets "book.xlsx" = Return ["A"; "B"]%string
  ∧ NoDup ["A"; "B"]%string
  ∧ outcome (extract two_sheets readable "book.xlsx")
    = Return (Some [("A"%string, sheet_a); ("B"%string, sheet_b)],
              Some [("A"%string, SheetStructure (df_shape sheet_a) (column_info sheet_a));
                    ("B"%string, SheetStructure (df_shape sheet_b) (column_info sheet_b))],
              Some (analyze_relationships str_int order_a
                      [("A"%string, sheet_a); ("B"%string, sheet_b)])).
Proof.
  assert (Hfile : two_sheets "book.xlsx" = Return ["A"; "B"]%string) by reflexivity.
  assert (Hnd : NoDup ["A"; "B"]%string)
    by (apply (bool_decide_unpack _); vm_compute; exact I).
  split; [exact Hfile|]. split; [exact Hnd|].
  exact (X10_successful_run str_int two_sheets readable written written
           show_names show_cells show_head show_pct order_a
           "book.xlsx" ["A"; "B"]%string sheet_of Hfile Hnd
           (λ n _, eq_refl) (λ n _, eq_refl) (λ a path, eq_refl)).
Defined.

Lemma X11_no_summary_witness :
  no_sheets "/Users/mtz/Projects/GEP/Gep DEMO DATA.xlsx" = Return []
  ∧ outcome (extract no_sheets readable "/Users/mtz/Projects/GEP/Gep DEMO DATA.xlsx")
    = Return (Some [], Some [], Some [])
  ∧ ExcelReader.main str_int no_sheets readable written written
      show_names show_cells show_head show_pct order_a
    = IO (console (extract no_sheets readable "/Users/mtz/Projects/GEP/Gep DEMO DATA.xlsx"))
         (Return tt).
Proof.
  assert (Hfile : no_sheets "/Users/mtz/Projects/GEP/Gep DEMO DATA.xlsx" = Return [])
    by reflexivity.
  split; [exact Hfile|].
  exact (proj1 (X11_no_summary str_int no_sheets readable written written
                  show_names show_cells show_head show_pct order_a)
               Hfile (λ a path, eq_refl)).
Defined.

Lemma X16_key_named_columns_witness :
  "Company_Code"%string ∈ columns (SqlText.frame contracts)
  ∧ contains "Code" "Company_Code" || endswith "_id" "Company_Code" = true
  ∧ safe_col_name lower "Company_Code" ∈ primary_keys str_int lower contracts
  ∧ primary_keys str_int lower contracts = ["company_code"; "contract_code"]%string.
Proof.
  assert (Hcol : "Company_Code"%string ∈ columns (SqlText.frame contracts)) by (cbn; left).
  assert (Hname : contains "Code" "Company_Code" || endswith "_id" "Company_Code" = true)
    by reflexivity.
  split; [exact Hcol|]. split; [exact Hname|].
  split; [|by vm_compute].
  exact (proj1 (X16_key_named_columns str_int lower contracts) _ Hcol Hname).
Defined.

Lemma X17_fixed_tables_witness :
  (∀ table_name, table_name ∈ table_order →
     item [("Contract"%string, contracts)] table_name
     = item [("Notes"%string, contracts); ("Contract"%string, contracts)] table_name)
  ∧ generate_data_insertion_sql lower [("Contract"%string, contracts)]
    = generate_data_insertion_sql lower
        [("Notes"%string, contracts); ("Contract"%string, contracts)].
Proof.
  assert (Hsame : ∀ table_name, table_name ∈ table_order →
            item [("Contract"%string, contracts)] table_name
            = item [("Notes"%string, contracts); ("Contract"%string, contracts)]
                   table_name).
  { intros t Ht. unfold table_order in Ht.
    repeat (apply elem_of_cons in Ht as [->|Ht]; [reflexivity|]).
    by apply elem_of_nil in Ht. }
  split; [exact Hsame|].
  exact (proj1 (proj2 (X17_fixed_tables str_int lower (λ s, s) _ _ tt tt Hsame))).
Defined.

Lemma X18_all_files_required_witness :
  visits_path ∈ Generated.csv_files.*2
  ∧ without_visits visits_path = Raise (no_such_file visits_path)
  ∧ ∃ e', SqlGenerator.generate_sql_schema_and_data (json := unit) (frame := unit)
            (λ _, Return tt) without_visits written "2025-01-01 00:00:00"
            (λ _ _, Return EmptyString) (λ _, Return EmptyString)
            (Return EmptyString) (Return EmptyString)
          = IO [] (Raise e').
Proof.
  assert (Hpath : visits_path ∈ Generated.csv_files.*2) by (cbn; do 5 right; left).
  assert (Hread : without_visits visits_path = Raise (no_such_file visits_path))
    by reflexivity.
  split; [exact Hpath|]. split; [exact Hread|].
  exact (proj1 (X18_all_files_required (json := unit) (frame := unit)
                  (λ _, Return tt) without_visits "2025-01-01 00:00:00"
                  (λ _ _, Return EmptyString) (λ _, Return EmptyString)
                  (Return EmptyString) (Return EmptyString)
                  (λ _ _, Return EmptyString)
                  visits_path _ written written Hpath Hread)).
Defined.

Lemma X19_script_assembly_witness :
  SqlGenerator.generate_sql_schema_and_data (json := unit) (frame := unit)
    (λ _, Return tt) (λ _, Return tt) written "2025-01-01 00:00:00"
    (λ _ _, Return "T"%string) (λ _, Return "I"%string)
    (Return "F"%string) (Return "Q"%string)
  = IO ["Complete SQL script generated: /Users/mtz/Projects/GEP/backend/gep_demo_complete.sql"%string]
       (Return (SqlGenerator.header "2025-01-01 00:00:00" +:+ "T" +:+ "I" +:+ "F" +:+ "Q")).
Proof.
  exact (proj2 (X19_script_assembly (json := unit) (frame := unit)
                  (λ _, Return tt) (λ _, Return tt) "2025-01-01 00:00:00"
                  (λ _ _, Return "T"%string) (λ _, Return "I"%string)
                  (Return "F"%string) (Return "Q"%string)
                  written (λ _, tt) tt "T" "I" "F" "Q"
                  eq_refl (λ path _, eq_refl) eq_refl eq_refl eq_refl eq_refl eq_refl)).
Defined.

End ExtraCases.
